(** * Shallow embedding of the planner ([planner.py]) and of the chatbot
    controller ([main.py]) of the mindhive assessment.

    Text is modelled as ASCII [string]s: Python's [str.lower], [\d], [\s]
    and [\w] are given by their action on ASCII characters. *)

From Stdlib Require Import Ascii String ZArith QArith List Lia.
From stdpp Require Import base gmap strings list.

Import ListNotations.
Local Open Scope Z_scope.

(* ------------------------------------------------------------------ *)
(** ** Characters and strings *)

(** [\d]: the decimal digits. *)
Definition is_digit (c : ascii) : bool :=
  let n := N_of_ascii c in (N.leb 48 n && N.leb n 57)%bool.

(** [\s] on ASCII: [ \t\n\r\f\v] and the separators 0x1c-0x1f, as
    [str.isspace]. *)
Definition is_space (c : ascii) : bool :=
  let n := N_of_ascii c in
  (N.eqb n 32 || (N.leb 9 n && N.leb n 13) || (N.leb 28 n && N.leb n 31))%bool.

Definition is_alpha (c : ascii) : bool :=
  let n := N_of_ascii c in
  ((N.leb 65 n && N.leb n 90) || (N.leb 97 n && N.leb n 122))%bool.

(** [\w] on ASCII: letters, digits and underscore. *)
Definition is_word (c : ascii) : bool :=
  (is_alpha c || is_digit c || Ascii.eqb c "_"%char)%bool.

(** The character class [[\+\-\*\/]]. *)
Definition is_op (c : ascii) : bool :=
  (Ascii.eqb c "+"%char || Ascii.eqb c "-"%char
   || Ascii.eqb c "*"%char || Ascii.eqb c "/"%char)%bool.

(** [str.lower] on one character. *)
Definition lower_char (c : ascii) : ascii :=
  let n := N_of_ascii c in
  if (N.leb 65 n && N.leb n 90)%bool then ascii_of_N (n + 32) else c.

Fixpoint lower (s : string) : string :=
  match s with
  | EmptyString => EmptyString
  | String c t => String (lower_char c) (lower t)
  end.

Fixpoint string_existsb (p : ascii -> bool) (s : string) : bool :=
  match s with
  | EmptyString => false
  | String c t => (p c || string_existsb p t)%bool
  end.

Fixpoint str_length (s : string) : nat :=
  match s with
  | EmptyString => O
  | String _ t => S (str_length t)
  end.

Definition str_is_empty (s : string) : bool :=
  match s with EmptyString => true | _ => false end.

(** [s.startswith(p)], returning the rest of [s]. *)
Fixpoint strip_prefix (p s : string) : option string :=
  match p, s with
  | EmptyString, _ => Some s
  | String c p', String d s' => if Ascii.eqb c d then strip_prefix p' s' else None
  | String _ _, EmptyString => None
  end.

(** Python's [needle in haystack]. *)
Fixpoint contains (needle s : string) : bool :=
  match strip_prefix needle s with
  | Some _ => true
  | None => match s with EmptyString => false | String _ t => contains needle t end
  end.

Definition contains_any (needles : list string) (s : string) : bool :=
  existsb (fun w => contains w s) needles.

(** Greedy run of characters satisfying [p]: the matched prefix and the rest. *)
Fixpoint span (p : ascii -> bool) (s : string) : string * string :=
  match s with
  | EmptyString => (EmptyString, EmptyString)
  | String c t =>
      if p c then let '(a, b) := span p t in (String c a, b) else (EmptyString, s)
  end.

(** [s.replace(a, b)] for single characters. *)
Fixpoint replace_char (a b : ascii) (s : string) : string :=
  match s with
  | EmptyString => EmptyString
  | String c t => String (if Ascii.eqb c a then b else c) (replace_char a b t)
  end.

(* ------------------------------------------------------------------ *)
(** ** [re.search]

    [search f s] tries the match function [f] at positions 0, 1, ...,
    [len s] of [s] and returns the first success: the leftmost match. *)

Fixpoint search {A} (f : string -> option A) (s : string) : option A :=
  match f s with
  | Some a => Some a
  | None => match s with EmptyString => None | String _ t => search f t end
  end.

Fixpoint search_b (f : string -> bool) (s : string) : bool :=
  (f s || match s with EmptyString => false | String _ t => search_b f t end)%bool.

(** [(\d+)\s*([\+\-\*\/])\s*(\d+)] anchored at the start of [s], with its
    three groups.  Backtracking never helps: a shorter [\d+] or [\s*] leaves
    a digit or a space in front of a token that cannot start with one, and
    the final [\d+] is greedy; so the match is the greedy one. *)
Definition sym_at (s : string) : option (string * ascii * string) :=
  let '(d1, r1) := span is_digit s in
  if str_is_empty d1 then None else
  match snd (span is_space r1) with
  | String o r3 =>
      if is_op o then
        let d2 := fst (span is_digit (snd (span is_space r3))) in
        if str_is_empty d2 then None else Some (d1, o, d2)
      else None
  | EmptyString => None
  end.

(** [what is (\d+)\s*([\+\-\*\/])\s*(\d+)] anchored. *)
Definition what_is_at (s : string) : option (string * ascii * string) :=
  match strip_prefix "what is " s with
  | Some r => sym_at r
  | None => None
  end.

(** The alternation of the natural-language operator words, in order. *)
Definition nl_words : list string :=
  ["plus"; "minus"; "times"; "multiply"; "divide"; "substract"; "divided by"].

Fixpoint first_some {A B} (f : A -> option B) (l : list A) : option B :=
  match l with
  | [] => None
  | x :: l' => match f x with Some b => Some b | None => first_some f l' end
  end.

(** [(\d+)\s*(plus|minus|times|multiply|divide|substract|divided by)\s*(\d+)]
    anchored: the alternatives are tried in order, each with the rest of the
    pattern. *)
Definition nl_at (s : string) : option (string * string * string) :=
  let '(d1, r1) := span is_digit s in
  if str_is_empty d1 then None else
  let r2 := snd (span is_space r1) in
  first_some
    (fun w => match strip_prefix w r2 with
              | Some r3 =>
                  let d2 := fst (span is_digit (snd (span is_space r3))) in
                  if str_is_empty d2 then None else Some (d1, w, d2)
              | None => None
              end) nl_words.

(** [whats\s+[\w\s]*\d+] anchored: after [whats] and one space, the longest
    run of [[\w\s]] characters must contain a digit. *)
Definition whats_at (s : string) : bool :=
  match strip_prefix "whats" s with
  | Some (String c r) =>
      (is_space c && string_existsb is_digit (fst (span (fun x => is_word x || is_space x)%bool r)))%bool
  | _ => false
  end.

(** [ss\s*\d+] anchored. *)
Definition ss_at (s : string) : bool :=
  match strip_prefix "ss" s with
  | Some r => match snd (span is_space r) with
              | String c _ => is_digit c
              | EmptyString => false
              end
  | None => false
  end.

Definition is_some {A} (o : option A) : bool :=
  match o with Some _ => true | None => false end.

(* ------------------------------------------------------------------ *)
(** ** [Intent], [Action] and [AgenticPlanner.analyze_intent] *)

Inductive Intent := CALCULATION | OUTLET_INFO | GENERAL_CHAT | UNKNOWN.

Inductive Action := ASK_FOR_INFO | USE_CALCULATOR | USE_OUTLET_DB | RESPOND_DIRECTLY.

(** [self.calculation_patterns], each as the truth value of [re.search]. *)
Definition calculation_patterns : list (string -> bool) :=
  [ fun s => is_some (search sym_at s);
    fun s => is_some (search what_is_at s);
    fun s => is_some (search nl_at s);
    contains_any ["sum of"; "difference of"; "product of"; "quotient of"];
    contains_any ["calculate"; "math"];
    (* [what\'s|whats\s+[\w\s]*\d+]: the alternation splits at the bar *)
    fun s => (contains "what's" s || search_b whats_at s)%bool ].

(** [self.outlet_patterns]. *)
Definition outlet_patterns : list (string -> bool) :=
  [ search_b ss_at;
    contains_any ["outlet"; "store"; "shop"; "location"; "branch"];
    contains_any ["opening"; "closing"; "hours"; "time"];
    contains_any ["damansara"; "petaling jaya"; "kuala lumpur"; "pj"; "kl"] ].

Definition analyze_intent (user_input : string) : Intent :=
  let user_input_lower := lower user_input in
  if existsb (fun p => p user_input_lower) calculation_patterns then CALCULATION
  else if existsb (fun p => p user_input_lower) outlet_patterns then OUTLET_INFO
  else GENERAL_CHAT.

(* ------------------------------------------------------------------ *)
(** ** Python values, dictionaries and exceptions *)

Inductive pyval := PyNone | PyInt (z : Z) | PyStr (s : string).

Definition pyval_eqb (a b : pyval) : bool :=
  match a, b with
  | PyNone, PyNone => true
  | PyInt x, PyInt y => Z.eqb x y
  | PyStr x, PyStr y => String.eqb x y
  | _, _ => false
  end.

(** Truthiness: [None], [0] and the empty string are false. *)
Definition py_truthy (v : pyval) : bool :=
  match v with
  | PyNone => false
  | PyInt z => negb (Z.eqb z 0)
  | PyStr s => negb (str_is_empty s)
  end.

(** [v in l] for a list literal. *)
Definition py_in (v : pyval) (l : list pyval) : bool := existsb (pyval_eqb v) l.

(** A dict literal, keys in insertion order. *)
Definition dict := list (string * pyval).

(** [d.get(k)]: [None] when [k] is absent. *)
Fixpoint dict_get (d : dict) (k : string) : pyval :=
  match d with
  | [] => PyNone
  | (k', v) :: d' => if String.eqb k k' then v else dict_get d' k
  end.

(** An [Optional[Dict]] is truthy when it is a non-empty dict. *)
Definition opt_dict_truthy (od : option dict) : bool :=
  match od with Some (_ :: _) => true | _ => false end.

Inductive exn :=
| ValueError (msg : string)
| KeyError (key : string)
| TypeError (msg : string)
| AttributeError (msg : string)
| ServiceError (msg : string).

(** [str(e)]. *)
Definition exn_text (e : exn) : string :=
  match e with
  | ValueError m | TypeError m | AttributeError m | ServiceError m => m
  | KeyError k => "'" +:+ k +:+ "'"
  end.

(** A computation that returns a value or raises. *)
Inductive exc (A : Type) := Ok (a : A) | Raise (e : exn).
Arguments Ok {A} a.
Arguments Raise {A} e.

Global Instance exc_ret : MRet exc := fun _ a => Ok a.
Global Instance exc_bind : MBind exc :=
  fun _ _ k c => match c with Ok a => k a | Raise e => Raise e end.

(** [d[k]]. *)
Definition dict_index (d : dict) (k : string) : exc pyval :=
  match find (fun kv => String.eqb k (fst kv)) d with
  | Some (_, v) => Ok v
  | None => Raise (KeyError k)
  end.

(** [od[k]] on an [Optional[Dict]]. *)
Definition opt_dict_index (od : option dict) (k : string) : exc pyval :=
  match od with
  | Some d => dict_index d k
  | None => Raise (TypeError "'NoneType' object is not subscriptable")
  end.

Definition opt_dict_get (od : option dict) (k : string) : pyval :=
  match od with Some d => dict_get d k | None => PyNone end.

(** CPython's default [sys.get_int_max_str_digits()]: [int(s)] and [str(n)]
    refuse decimal conversions of more than this many digits. *)
Definition int_max_str_digits : nat := 4300.

Definition digit_value (c : ascii) : Z := Z.of_N (N_of_ascii c) - 48.

Fixpoint digits_value_acc (acc : Z) (s : string) : Z :=
  match s with
  | EmptyString => acc
  | String c t => digits_value_acc (acc * 10 + digit_value c) t
  end.

Definition digits_value (s : string) : Z := digits_value_acc 0 s.

(** The strings [py_int] accepts as digits: no character outside [\d]. *)
Definition all_digits (s : string) : bool :=
  negb (string_existsb (fun c => negb (is_digit c)) s).

Definition digit_char (d : N) : ascii := ascii_of_N (48 + d).

Fixpoint dec_rev (fuel : nat) (n : N) (acc : string) : string :=
  match fuel with
  | O => acc
  | S f =>
      let acc' := String (digit_char (N.modulo n 10)) acc in
      if N.eqb (N.div n 10) 0 then acc' else dec_rev f (N.div n 10) acc'
  end.

Definition dec_N (n : N) : string := dec_rev (S (N.size_nat n)) n EmptyString.

(** [int(s)] on a string of decimal digits (the only strings the planner
    passes: [\d+] groups), with CPython's error texts. *)
Definition py_int (s : string) : exc Z :=
  if (negb (str_is_empty s) && negb (string_existsb (fun c => negb (is_digit c)) s))%bool then
    if Nat.leb (str_length s) int_max_str_digits then Ok (digits_value s)
    else Raise (ValueError ("Exceeds the limit (4300 digits) for integer string conversion: value has " +:+
                            dec_N (N.of_nat (str_length s)) +:+
                            " digits; use sys.set_int_max_str_digits() to increase the limit"))
  else Raise (ValueError ("invalid literal for int() with base 10: '" +:+ s +:+ "'")).

(** [str(z)] for an int, with CPython's error text; the limit counts the
    digits without the sign. *)
Definition py_str_int (z : Z) : exc string :=
  let ds := dec_N (Z.abs_N z) in
  if Nat.leb (str_length ds) int_max_str_digits then
    Ok (if Z.ltb z 0 then String "-"%char ds else ds)
  else Raise (ValueError "Exceeds the limit (4300 digits) for integer string conversion; use sys.set_int_max_str_digits() to increase the limit").

(** [str(v)] / f-string formatting of a value. *)
Definition py_format (v : pyval) : exc string :=
  match v with
  | PyNone => Ok "None"
  | PyInt z => py_str_int z
  | PyStr s => Ok s
  end.

(** [v.replace('_', ' ')]. *)
Definition py_replace_underscore (v : pyval) : exc string :=
  match v with
  | PyStr s => Ok (replace_char "_"%char " "%char s)
  | PyNone => Raise (AttributeError "'NoneType' object has no attribute 'replace'")
  | PyInt _ => Raise (AttributeError "'int' object has no attribute 'replace'")
  end.

(* ------------------------------------------------------------------ *)
(** ** [AgenticPlanner.extract_calculation_data] *)

(** [self.operator_map]. *)
Definition operator_map : list (string * string) :=
  [("plus", "+"); ("add", "+"); ("minus", "-"); ("subtract", "-");
   ("times", "*"); ("multiply", "*"); ("divide", "/"); ("divided by", "/")].

(** [self.operator_map.get(w)]. *)
Definition operator_map_get (w : string) : option string :=
  match find (fun kv => String.eqb w (fst kv)) operator_map with
  | Some (_, v) => Some v
  | None => None
  end.

Definition calc_dict (num1 : Z) (operator : string) (num2 : Z) : dict :=
  [("num1", PyInt num1); ("operator", PyStr operator); ("num2", PyInt num2)].

(** The [try: return {...} except ValueError: pass] blocks: [None] means
    "fall through to the next strategy". *)
Definition try_calc_dict (g1 : string) (operator : string) (g3 : string) : option dict :=
  match py_int g1 with
  | Ok n1 => match py_int g3 with
             | Ok n2 => Some (calc_dict n1 operator n2)
             | Raise _ => None
             end
  | Raise _ => None
  end.

Definition extract_calculation_data (user_input : string) : option dict :=
  let user_input_lower := lower user_input in
  let direct :=
    match search sym_at user_input with
    | Some (g1, o, g3) => try_calc_dict g1 (String o EmptyString) g3
    | None => None
    end in
  match direct with
  | Some d => Some d
  | None =>
    let natural :=
      match search nl_at user_input_lower with
      | Some (g1, op_word, g3) =>
          match operator_map_get op_word with
          | Some operator_symbol => try_calc_dict g1 operator_symbol g3
          | None => None
          end
      | None => None
      end in
    match natural with
    | Some d => Some d
    | None =>
      match search what_is_at user_input_lower with
      | Some (g1, o, g3) => try_calc_dict g1 (String o EmptyString) g3
      | None => None
      end
    end
  end.

(* ------------------------------------------------------------------ *)
(** ** [AgenticPlanner.extract_outlet_data] *)

Definition extract_outlet_data (user_input : string) : option dict :=
  let l := lower user_input in
  let location :=
    if (contains "ss2" l || contains "ss 2" l)%bool then PyStr "SS2"
    else if (contains "ss15" l || contains "ss 15" l)%bool then PyStr "SS15"
    else if contains "damansara" l then PyStr "Damansara"
    else if (contains "petaling jaya" l || contains "pj" l)%bool then PyStr "Petaling Jaya"
    else if (contains "kuala lumpur" l || contains "kl" l)%bool then PyStr "Kuala Lumpur"
    else PyNone in
  let info_type :=
    if (contains "opening" l || contains "open" l)%bool then PyStr "opening_hours"
    else if (contains "closing" l || contains "close" l)%bool then PyStr "closing_hours"
    else if (contains "hours" l || contains "time" l)%bool then PyStr "hours"
    else PyNone in
  if (py_truthy location || py_truthy info_type)%bool
  then Some [("location", location); ("info_type", info_type)]
  else None.

(* ------------------------------------------------------------------ *)
(** ** [PlanningResult] and [AgenticPlanner.plan_next_action] *)

Record PlanningResult := {
  intent : Intent;
  action : Action;
  missing_info : option string;
  extracted_data : option dict;
  confidence : Q
}.

Definition general_areas : list pyval := [PyStr "Petaling Jaya"; PyStr "Kuala Lumpur"].

Definition calc_prompt : string :=
  "I can help with calculations! What numbers and operation do you need? (e.g., '5 + 3' or '10 times 5')".

Definition outlet_prompt : string :=
  "Which outlet are you asking about? Please specify a location (e.g., SS2, SS15, Damansara) or what kind of information you're looking for.".

Definition plan_next_action (user_input : string) : exc PlanningResult :=
  let intent := analyze_intent user_input in
  match intent with
  | CALCULATION =>
      let ed := extract_calculation_data user_input in
      if opt_dict_truthy ed
      then Ok {| intent := intent; action := USE_CALCULATOR; missing_info := None;
                 extracted_data := ed; confidence := 9 # 10 |}
      else Ok {| intent := intent; action := ASK_FOR_INFO; missing_info := Some calc_prompt;
                 extracted_data := ed; confidence := 8 # 10 |}
  | OUTLET_INFO =>
      let ed := extract_outlet_data user_input in
      let loc := opt_dict_get ed "location" in
      let info := opt_dict_get ed "info_type" in
      (* Scenario 1: specific outlet *)
      if (opt_dict_truthy ed && py_truthy loc && negb (py_in loc general_areas))%bool then
        Ok {| intent := intent; action := USE_OUTLET_DB; missing_info := None;
              extracted_data := ed; confidence := 9 # 10 |}
      (* Scenario 2: general location or no location, with an info type *)
      else if (opt_dict_truthy ed && (py_in loc general_areas || negb (py_truthy loc))
               && py_truthy info)%bool then
        i ← opt_dict_index ed "info_type";
        t ← py_replace_underscore i;
        Ok {| intent := intent; action := ASK_FOR_INFO;
              missing_info := Some ("Yes, we have outlets in Petaling Jaya! Which specific outlet are you referring to (e.g., SS2, SS15, Damansara) to check the " +:+ t +:+ "?");
              extracted_data := ed; confidence := 85 # 100 |}
      (* Scenario 3: general location only *)
      else if (opt_dict_truthy ed && py_in loc general_areas && negb (py_truthy info))%bool then
        l ← opt_dict_index ed "location";
        t ← py_format l;
        Ok {| intent := intent; action := ASK_FOR_INFO;
              missing_info := Some ("Yes, we have outlets in " +:+ t +:+ "! Which specific outlet are you referring to?");
              extracted_data := ed; confidence := 85 # 100 |}
      (* Scenario 4 *)
      else
        Ok {| intent := intent; action := ASK_FOR_INFO; missing_info := Some outlet_prompt;
              extracted_data := ed; confidence := 7 # 10 |}
  | _ =>
      Ok {| intent := intent; action := RESPOND_DIRECTLY; missing_info := None;
            extracted_data := None; confidence := 1 # 2 |}
  end.

(* ------------------------------------------------------------------ *)
(** ** [perform_simple_calculation] and [get_mock_outlet_info] *)

Section Tools.

(** [str(num1 / num2)] for [num2 <> 0]: Python true division to a float and
    its [repr]; it may raise [OverflowError] for huge operands.  Floating
    point is not modelled: every statement below holds for any choice. *)
Variable str_true_div : Z -> Z -> exc string.

(** The body of the [try] block. *)
Definition calc_body (num1 : Z) (operator : string) (num2 : Z) : exc string :=
  if String.eqb operator "+" then py_str_int (num1 + num2)
  else if String.eqb operator "-" then py_str_int (num1 - num2)
  else if String.eqb operator "*" then py_str_int (num1 * num2)
  else if String.eqb operator "/" then
    if Z.eqb num2 0 then Ok "Error: Division by zero is not allowed."
    else str_true_div num1 num2
  else Ok "Error: Invalid operator for calculation.".

(** [except Exception as e] turns every exception into text: the function
    returns a [string], never an exception. *)
Definition perform_simple_calculation (num1 : Z) (operator : string) (num2 : Z) : string :=
  match calc_body num1 operator num2 with
  | Ok s => s
  | Raise e => "An unexpected error occurred during calculation: " +:+ exn_text e
  end.

End Tools.

Record outlet_row := {
  opening_hours : option string;
  closing_hours : option string;
  general_info : string
}.

(** [location_map] of [get_mock_outlet_info]. *)
Definition location_map : list (string * outlet_row) :=
  [("SS2", {| opening_hours := Some "9:00 AM"; closing_hours := Some "10:00 PM";
              general_info := "a bustling spot in Petaling Jaya with good vibes." |});
   ("SS15", {| opening_hours := Some "8:00 AM"; closing_hours := Some "9:00 PM";
               general_info := "a lively student hangout spot." |});
   ("Damansara", {| opening_hours := Some "7:00 AM"; closing_hours := Some "11:00 PM";
                    general_info := "a cozy spot for early birds in Damansara." |});
   ("Petaling Jaya", {| opening_hours := None; closing_hours := None;
                        general_info := "several great outlets like SS2, SS15, and Damansara." |});
   ("Kuala Lumpur", {| opening_hours := None; closing_hours := None;
                       general_info := "several great outlets like our flagship KLCC branch (details not available yet!)." |})].

Definition location_map_get (v : pyval) : option outlet_row :=
  match v with
  | PyStr s => match find (fun kv => String.eqb s (fst kv)) location_map with
               | Some (_, r) => Some r
               | None => None
               end
  | _ => None
  end.

(** [outlet_data['opening_hours']] and the like. *)
Definition row_field (k : string) (o : option string) : exc string :=
  match o with Some s => Ok s | None => Raise (KeyError k) end.

Definition get_mock_outlet_info (location info_type : pyval) : exc string :=
  if negb (py_truthy location) then
    Ok "I need a specific outlet (like SS2, SS15, or Damansara) to give you information."
  else
  match location_map_get location with
  | None =>
      l ← py_format location;
      Ok ("I don't have detailed information for an outlet specifically called '" +:+ l +:+
          "'. Did you mean SS2, SS15, or Damansara?")
  | Some outlet_data =>
      l ← py_format location;
      if py_in location general_areas then
        if py_truthy info_type then
          t ← py_replace_underscore info_type;
          Ok ("We have several outlets in " +:+ l +:+
              ". Which specific one (e.g., SS2, SS15, Damansara) are you interested in for its " +:+ t +:+ "?")
        else
          Ok ("Yes, we have outlets in " +:+ l +:+ ", including " +:+ general_info outlet_data +:+
              ". Which specific outlet would you like to know about?")
      else if pyval_eqb info_type (PyStr "opening_hours") then
        o ← row_field "opening_hours" (opening_hours outlet_data);
        Ok ("The " +:+ l +:+ " outlet opens at " +:+ o +:+ ".")
      else if pyval_eqb info_type (PyStr "closing_hours") then
        c ← row_field "closing_hours" (closing_hours outlet_data);
        Ok ("The " +:+ l +:+ " outlet closes at " +:+ c +:+ ".")
      else if pyval_eqb info_type (PyStr "hours") then
        o ← row_field "opening_hours" (opening_hours outlet_data);
        c ← row_field "closing_hours" (closing_hours outlet_data);
        Ok ("The " +:+ l +:+ " outlet opens at " +:+ o +:+ " and closes at " +:+ c +:+ ".")
      else
        Ok ("The " +:+ l +:+ " outlet is " +:+ general_info outlet_data +:+
            " Would you like to know its opening or closing hours?")
  end.

(* ------------------------------------------------------------------ *)
(** ** [ChatbotController]

    [self._history_store] maps session ids to [ChatMessageHistory]
    objects.  The objects live in a heap indexed by references, so that the
    identity of a history object and the sharing of one object between
    [self._history_store] and the callers of [get_session_history] are
    explicit. *)

Inductive role := Human | AI.

Definition message := (role * string)%type.

Record controller := {
  history_store : gmap string nat;   (* session id -> history object *)
  heap : gmap nat (list message);    (* history object -> its messages *)
  next_ref : nat                     (* next fresh object *)
}.

(** [ChatbotController()]: an empty [_history_store]. *)
Definition new_controller : controller :=
  {| history_store := ∅; heap := ∅; next_ref := 0 |}.

(** [get_session_history]: returns the object registered for [session_id],
    creating and registering an empty [ChatMessageHistory()] first when
    there is none. *)
Definition get_session_history (st : controller) (session_id : string) : nat * controller :=
  match history_store st !! session_id with
  | Some r => (r, st)
  | None =>
      let r := next_ref st in
      (r, {| history_store := <[session_id := r]> (history_store st);
             heap := <[r := []]> (heap st);
             next_ref := S r |})
  end.

(** [history.add_user_message] / [history.add_ai_message]: append to the
    object's message list. *)
Definition add_message (st : controller) (r : nat) (m : message) : controller :=
  {| history_store := history_store st;
     heap := alter (fun ms => ms ++ [m]) r (heap st);
     next_ref := next_ref st |}.

Definition messages_of (st : controller) (r : nat) : list message :=
  default [] (heap st !! r).

(** The messages a query [get_session_history(session_id).messages] sees
    (a session not yet registered would be created empty). *)
Definition session_messages (st : controller) (session_id : string) : list message :=
  match history_store st !! session_id with
  | Some r => messages_of st r
  | None => []
  end.

Section Controller.

Variable str_true_div : Z -> Z -> exc string.

(** The generative-completion call of [self.conversation_with_history]:
    ChatGroq on the prompt made of the system message, the session's
    messages and the new input; it returns the reply's [content] or raises
    (network or service failure). *)
Variable complete : list message -> string -> exc string.

(** [self.conversation_with_history.invoke({"input": user_input}, config)]:
    langchain's [RunnableWithMessageHistory] looks the history object up
    through [self.get_session_history(session_id)], runs the chain on its
    messages, and on success appends the input as a human message and the
    reply as an AI message; when the chain raises, the exception propagates
    and nothing is appended. *)
Definition invoke_with_history (st : controller) (user_input session_id : string)
  : exc string * controller :=
  let '(r, st1) := get_session_history st session_id in
  match complete (messages_of st1 r) user_input with
  | Ok out => (Ok out, add_message (add_message st1 r (Human, user_input)) r (AI, out))
  | Raise e => (Raise e, st1)
  end.

(** [extracted['num1'], extracted['operator'], extracted['num2']] passed to
    [perform_simple_calculation(num1: int, operator: str, num2: int)]. *)
Definition calc_args (d : dict) : exc (Z * string * Z) :=
  a ← dict_index d "num1";
  o ← dict_index d "operator";
  b ← dict_index d "num2";
  match a, o, b with
  | PyInt x, PyStr s, PyInt y => Ok (x, s, y)
  | _, _, _ => Raise (TypeError "unsupported operand types")
  end.

(** The three tool branches: get the history object, then
    [history.add_user_message(user_input)] and
    [history.add_ai_message(response_content)]. *)
Definition record_exchange (st : controller) (user_input session_id : string)
  (response_content : option string) : exc string * controller :=
  let '(r, st1) := get_session_history st session_id in
  let st2 := add_message st1 r (Human, user_input) in
  match response_content with
  | Some resp => (Ok resp, add_message st2 r (AI, resp))
  | None => (Raise (ValueError "AIMessage content: input should be a valid string"), st2)
  end.

Definition process_user_input (st : controller) (user_input session_id : string)
  : exc string * controller :=
  match plan_next_action user_input with
  | Raise e => (Raise e, st)
  | Ok planning_result =>
    match action planning_result with
    | ASK_FOR_INFO =>
        record_exchange st user_input session_id (missing_info planning_result)
    | USE_CALCULATOR =>
        let resp :=
          match extracted_data planning_result with
          | Some ((_ :: _) as extracted) =>
              args ← calc_args extracted;
              let '(n1, o, n2) := args in
              Ok (perform_simple_calculation str_true_div n1 o n2)
          | _ => Ok "I encountered an issue with the calculation. Could you please rephrase the calculation clearly?"
          end in
        match resp with
        | Ok s => record_exchange st user_input session_id (Some s)
        | Raise e => (Raise e, st)
        end
    | USE_OUTLET_DB =>
        let resp :=
          match extracted_data planning_result with
          | Some ((_ :: _) as extracted) =>
              get_mock_outlet_info (dict_get extracted "location") (dict_get extracted "info_type")
          | _ => Ok "I need more details to find outlet information. Please specify a location or what you're looking for."
          end in
        match resp with
        | Ok s => record_exchange st user_input session_id (Some s)
        | Raise e => (Raise e, st)
        end
    | RESPOND_DIRECTLY =>
        invoke_with_history st user_input session_id
    end
  end.

(** A sequence of calls on one session, each outcome kept. *)
Fixpoint run_session (st : controller) (session_id : string) (inputs : list string)
  : list (exc string) * controller :=
  match inputs with
  | [] => ([], st)
  | i :: rest =>
      let '(out, st1) := process_user_input st i session_id in
      let '(outs, st2) := run_session st1 session_id rest in
      (out :: outs, st2)
  end.

(** Calls on the controller, on any sessions. *)
Inductive op :=
| GetHistory (session_id : string)
| ProcessInput (user_input session_id : string).

Definition run_op (st : controller) (o : op) : controller :=
  match o with
  | GetHistory sid => snd (get_session_history st sid)
  | ProcessInput i sid => snd (process_user_input st i sid)
  end.

Definition run_ops (st : controller) (ops : list op) : controller :=
  fold_left run_op ops st.

(** How [run_interactive_conversation] stops: on a line whose [.lower()]
    is ['exit'], when [input()] finds no more lines ([EOFError]), or when
    [process_user_input] raises. *)
Inductive loop_end := Exited | InputEOF | Crashed (e : exn).

(** The [while True] loop, on one [ChatbotController] and the session
    ["interactive_session"]. *)
Fixpoint conversation_loop (st : controller) (lines : list string)
  : list string * loop_end * controller :=
  match lines with
  | [] => ([], InputEOF, st)
  | user_input :: rest =>
      if String.eqb (lower user_input) "exit" then ([], Exited, st)
      else match process_user_input st user_input "interactive_session" with
           | (Raise e, st1) => ([], Crashed e, st1)
           | (Ok bot_response, st1) =>
               let '(printed, e, st2) := conversation_loop st1 rest in
               (("Bot: " +:+ bot_response) :: printed, e, st2)
           end
  end.

(** [run_interactive_conversation] on the lines read by [input()], with the
    [Bot: ...] lines it prints; the banner lines are left out. *)
Definition run_interactive_conversation (lines : list string) : list string * loop_end * controller :=
  conversation_loop new_controller lines.

End Controller.

(* ================================================================== *)
(** * Properties *)

(** ** Helper lemmas on the matchers *)

Lemma search_suffix {A} (f : string -> option A) (s : string) (a : A) :
  search f s = Some a ->
  exists pre t, s = (pre +:+ t)%string /\ f t = Some a.
Proof.
  induction s as [|c s IH]; simpl; intros H.
  - destruct (f EmptyString) eqn:E; [|discriminate].
    injection H as <-. exists EmptyString, EmptyString. auto.
  - destruct (f (String c s)) eqn:E.
    + injection H as <-. exists EmptyString, (String c s). auto.
    + destruct (IH H) as (pre & t & -> & Ht).
      exists (String c pre), t. auto.
Qed.

Lemma search_b_suffix (f : string -> bool) (s : string) :
  search_b f s = true ->
  exists pre t, s = (pre +:+ t)%string /\ f t = true.
Proof.
  induction s as [|c s IH]; simpl; intros H.
  - apply orb_true_iff in H as [H|H]; [|discriminate].
    exists EmptyString, EmptyString. auto.
  - apply orb_true_iff in H as [H|H].
    + exists EmptyString, (String c s). auto.
    + destruct (IH H) as (pre & t & -> & Ht).
      exists (String c pre), t. auto.
Qed.

Lemma is_op_cases (o : ascii) :
  is_op o = true -> In (String o EmptyString) ["+"; "-"; "*"; "/"].
Proof.
  unfold is_op. intros H.
  repeat (apply orb_true_iff in H as [H|H]);
    apply Ascii.eqb_eq in H; subst; simpl; tauto.
Qed.

Lemma sym_at_op (s g1 g3 : string) (o : ascii) :
  sym_at s = Some (g1, o, g3) -> is_op o = true.
Proof.
  unfold sym_at. destruct (span is_digit s) as [d1 r1].
  destruct (str_is_empty d1); [discriminate|].
  destruct (snd (span is_space r1)) as [|o' r3]; [discriminate|].
  destruct (is_op o') eqn:Ho; [|discriminate].
  destruct (str_is_empty _); [discriminate|].
  intros H; injection H as _ <- _. exact Ho.
Qed.

Lemma search_sym_op (s g1 g3 : string) (o : ascii) :
  search sym_at s = Some (g1, o, g3) -> is_op o = true.
Proof.
  intros H. destruct (search_suffix _ _ _ H) as (pre & t & _ & Ht).
  exact (sym_at_op _ _ _ _ Ht).
Qed.

Lemma search_what_is_op (s g1 g3 : string) (o : ascii) :
  search what_is_at s = Some (g1, o, g3) -> is_op o = true.
Proof.
  intros H. destruct (search_suffix _ _ _ H) as (pre & t & _ & Ht).
  unfold what_is_at in Ht. destruct (strip_prefix _ t); [|discriminate].
  exact (sym_at_op _ _ _ _ Ht).
Qed.

Lemma operator_map_get_op (w v : string) :
  operator_map_get w = Some v -> In v ["+"; "-"; "*"; "/"].
Proof.
  unfold operator_map_get. simpl.
  repeat match goal with
         | |- context [if String.eqb ?a ?b then _ else _] => destruct (String.eqb a b)
         end;
    intros H; try discriminate; injection H as <-; simpl; tauto.
Qed.

Lemma try_calc_dict_shape (g1 o g3 : string) (d : dict) :
  try_calc_dict g1 o g3 = Some d -> exists n1 n2, d = calc_dict n1 o n2.
Proof.
  unfold try_calc_dict.
  destruct (py_int g1) as [n1|]; [|discriminate].
  destruct (py_int g3) as [n2|]; [|discriminate].
  intros H; injection H as <-. eauto.
Qed.

Definition calc_ops : list string := ["+"; "-"; "*"; "/"].

(** The result of one extraction strategy: absent, or a complete dict. *)
Definition complete_calc (od : option dict) : Prop :=
  od = None \/
  exists num1 operator num2, od = Some (calc_dict num1 operator num2) /\ In operator calc_ops.

Lemma try_calc_dict_complete (g1 o g3 : string) :
  In o calc_ops -> complete_calc (try_calc_dict g1 o g3).
Proof.
  intros Ho. destruct (try_calc_dict g1 o g3) as [d|] eqn:T; [|now left].
  destruct (try_calc_dict_shape _ _ _ _ T) as (n1 & n2 & ->).
  right. eauto.
Qed.

Lemma complete_calc_first (a b : option dict) :
  complete_calc a -> complete_calc b ->
  complete_calc (match a with Some d => Some d | None => b end).
Proof. intros [->|(n1 & o & n2 & -> & Ho)] Hb; [exact Hb|]. right. eauto. Qed.

Lemma span_fst_all (p : ascii -> bool) (s : string) :
  string_existsb (fun c => negb (p c)) (fst (span p s)) = false.
Proof.
  induction s as [|c s IH]; simpl; [reflexivity|].
  destruct (p c) eqn:Hc; simpl; [|reflexivity].
  destruct (span p s) as [a b]; simpl in *. rewrite Hc, IH. reflexivity.
Qed.

Lemma py_int_digits (g : string) :
  str_is_empty g = false ->
  string_existsb (fun c => negb (is_digit c)) g = false ->
  (str_length g <= int_max_str_digits)%nat ->
  py_int g = Ok (digits_value g).
Proof.
  intros He Hd Hl. unfold py_int. rewrite He, Hd. simpl.
  apply Nat.leb_le in Hl. rewrite Hl. reflexivity.
Qed.

Lemma sym_at_groups (s g1 g3 : string) (o : ascii) :
  sym_at s = Some (g1, o, g3) ->
  str_is_empty g1 = false /\ string_existsb (fun c => negb (is_digit c)) g1 = false /\
  str_is_empty g3 = false /\ string_existsb (fun c => negb (is_digit c)) g3 = false.
Proof.
  unfold sym_at. pose proof (span_fst_all is_digit s) as A1.
  destruct (span is_digit s) as [d1 r1]; simpl in A1.
  destruct (str_is_empty d1) eqn:E1; [discriminate|].
  destruct (snd (span is_space r1)) as [|o' r3]; [discriminate|].
  destruct (is_op o'); [|discriminate].
  pose proof (span_fst_all is_digit (snd (span is_space r3))) as A2.
  destruct (str_is_empty (fst (span is_digit (snd (span is_space r3))))) eqn:E2; [discriminate|].
  intros H; injection H as <- _ <-. auto.
Qed.

(** ** Claim C9 *)

(** C9: [extract_calculation_data] returns [None] or the complete dict
    [{num1: int, operator: op, num2: int}] with all three keys, [op] one of
    [+ - * /]; never a partial dict. *)
Theorem extract_calculation_data_complete (user_input : string) :
  extract_calculation_data user_input = None \/
  exists num1 operator num2,
    extract_calculation_data user_input = Some (calc_dict num1 operator num2) /\
    In operator ["+"; "-"; "*"; "/"].
Proof.
  change (complete_calc (extract_calculation_data user_input)).
  unfold extract_calculation_data.
  apply complete_calc_first; [|apply complete_calc_first].
  - destruct (search sym_at user_input) as [[[g1 o] g3]|] eqn:E; [|now left].
    apply try_calc_dict_complete, is_op_cases, (search_sym_op _ _ _ _ E).
  - destruct (search nl_at (lower user_input)) as [[[g1 w] g3]|]; [|now left].
    destruct (operator_map_get w) as [sym|] eqn:Ew; [|now left].
    apply try_calc_dict_complete, (operator_map_get_op _ _ Ew).
  - destruct (search what_is_at (lower user_input)) as [[[g1 o] g3]|] eqn:E; [|now left].
    apply try_calc_dict_complete, is_op_cases, (search_what_is_op _ _ _ _ E).
Qed.

(** ** Claim C3 *)

(** C3: when the intent is [OUTLET_INFO] and the outlet extraction resolves
    a specific location (SS2, SS15 or Damansara), the plan is
    [USE_OUTLET_DB] with confidence 0.9, whatever general-area phrase the
    input also contains. *)
Theorem plan_specific_outlet_uses_db (user_input : string) (d : dict) (loc : string) :
  analyze_intent user_input = OUTLET_INFO ->
  extract_outlet_data user_input = Some d ->
  dict_get d "location" = PyStr loc ->
  In loc ["SS2"; "SS15"; "Damansara"] ->
  exists r, plan_next_action user_input = Ok r /\
            action r = USE_OUTLET_DB /\ confidence r = 9 # 10.
Proof.
  intros Hi He Hl Hin. unfold plan_next_action. rewrite Hi, He.
  destruct d as [|kv d]; [discriminate|].
  unfold opt_dict_get. rewrite Hl.
  destruct Hin as [<-|[<-|[<-|[]]]]; simpl; eauto.
Qed.

(** Witness: "SS2 near PJ, opening time?" names a specific outlet and the
    general area PJ. *)
Lemma plan_specific_outlet_uses_db_witness :
  exists r, plan_next_action "SS2 near PJ, opening time?" = Ok r /\
            action r = USE_OUTLET_DB /\ confidence r = 9 # 10.
Proof.
  apply (plan_specific_outlet_uses_db "SS2 near PJ, opening time?"
           [("location", PyStr "SS2"); ("info_type", PyStr "opening_hours")] "SS2");
    [vm_compute; reflexivity | vm_compute; reflexivity | reflexivity | simpl; tauto].
Defined.

(** ** Claim C4 *)

(** C4: [plan_next_action("SS 2, whats the opening time?")] is
    [USE_OUTLET_DB] with [location = "SS2"] and
    [info_type = "opening_hours"]. *)
Theorem plan_ss2_opening_time :
  exists r d,
    plan_next_action "SS 2, whats the opening time?" = Ok r /\
    action r = USE_OUTLET_DB /\
    extracted_data r = Some d /\
    dict_get d "location" = PyStr "SS2" /\
    dict_get d "info_type" = PyStr "opening_hours".
Proof.
  vm_compute. eexists _, _. repeat split; reflexivity.
Qed.

(** ** Claim C5 *)

(** C5: [perform_simple_calculation(num1, '/', 0)] returns the text
    "Error: Division by zero is not allowed."; the body raises nothing. *)
Theorem division_by_zero_message (str_true_div : Z -> Z -> exc string) (num1 : Z) :
  calc_body str_true_div num1 "/" 0 = Ok "Error: Division by zero is not allowed." /\
  perform_simple_calculation str_true_div num1 "/" 0 = "Error: Division by zero is not allowed.".
Proof. split; reflexivity. Qed.

(** ** Claim C10 *)

(** C10: with an operator outside [+ - * /], [perform_simple_calculation]
    returns "Error: Invalid operator for calculation." without raising. *)
Theorem invalid_operator_message (str_true_div : Z -> Z -> exc string)
  (num1 num2 : Z) (operator : string) :
  ~ In operator ["+"; "-"; "*"; "/"] ->
  calc_body str_true_div num1 operator num2 = Ok "Error: Invalid operator for calculation." /\
  perform_simple_calculation str_true_div num1 operator num2 =
    "Error: Invalid operator for calculation.".
Proof.
  intros Hn. unfold perform_simple_calculation, calc_body.
  destruct (String.eqb_spec operator "+"); [subst; simpl in Hn; tauto|].
  destruct (String.eqb_spec operator "-"); [subst; simpl in Hn; tauto|].
  destruct (String.eqb_spec operator "*"); [subst; simpl in Hn; tauto|].
  destruct (String.eqb_spec operator "/"); [subst; simpl in Hn; tauto|].
  split; reflexivity.
Qed.

Lemma invalid_operator_message_witness :
  ~ In "%" ["+"; "-"; "*"; "/"] /\
  perform_simple_calculation (fun _ _ => Ok "0.5") 7 "%" 2 =
    "Error: Invalid operator for calculation.".
Proof.
  assert (H : ~ In "%" ["+"; "-"; "*"; "/"]) by (simpl; intuition discriminate).
  split; [exact H|].
  exact (proj2 (invalid_operator_message (fun _ _ => Ok "0.5") 7 2 "%" H)).
Defined.

(** ** Claim C1 *)

Fixpoint repeat_char (n : nat) (c : ascii) : string :=
  match n with O => EmptyString | S m => String c (repeat_char m c) end.

(** An input of the form [<int> + <int>] whose first operand has 4301
    digits. *)
Definition long_operand_input : string := (repeat_char 4301 "1" +:+ "+1")%string.

(** C1 fails: the input matches [<int> <op> <int>], but [int()] refuses the
    4301-digit operand with [ValueError], the [except ValueError: pass]
    falls through to the other strategies, which do not match, and the
    result is [None]. *)
Lemma extract_calculation_long_operand_cex :
  search sym_at long_operand_input = Some (repeat_char 4301 "1", "+"%char, "1") /\
  extract_calculation_data long_operand_input = None.
Proof. split; vm_compute; reflexivity. Qed.

(** C1, amended: when the leftmost match of [<int> <op> <int>] has operands
    of at most 4300 digits, [extract_calculation_data] returns exactly
    [{num1: int(first), operator: op, num2: int(second)}] of that match. *)
Theorem extract_calculation_symbolic (user_input g1 g3 : string) (o : ascii) :
  search sym_at user_input = Some (g1, o, g3) ->
  (str_length g1 <= 4300)%nat ->
  (str_length g3 <= 4300)%nat ->
  extract_calculation_data user_input =
    Some (calc_dict (digits_value g1) (String o EmptyString) (digits_value g3)).
Proof.
  intros Hs H1 H3. unfold extract_calculation_data. rewrite Hs.
  destruct (search_suffix _ _ _ Hs) as (pre & t & _ & Ht).
  destruct (sym_at_groups _ _ _ _ Ht) as (E1 & D1 & E3 & D3).
  unfold try_calc_dict.
  rewrite (py_int_digits g1 E1 D1 H1), (py_int_digits g3 E3 D3 H3).
  reflexivity.
Qed.

Lemma extract_calculation_symbolic_witness :
  search sym_at "what is 12 * 30 ?" = Some ("12", "*"%char, "30") /\
  extract_calculation_data "what is 12 * 30 ?" = Some (calc_dict 12 "*" 30).
Proof.
  assert (H : search sym_at "what is 12 * 30 ?" = Some ("12", "*"%char, "30"))
    by (vm_compute; reflexivity).
  split; [exact H|].
  exact (extract_calculation_symbolic "what is 12 * 30 ?" "12" "30" "*"%char H
           ltac:(simpl; lia) ltac:(simpl; lia)).
Defined.

(** ** Claim C2 *)

(** The arithmetic keywords of [calculation_patterns] (patterns 4 and 5). *)
Definition arithmetic_keywords : list string :=
  ["sum of"; "difference of"; "product of"; "quotient of"; "calculate"; "math"].

(** The keywords of [outlet_patterns] (patterns 2 to 4). *)
Definition outlet_keywords : list string :=
  ["outlet"; "store"; "shop"; "location"; "branch"; "opening"; "closing"; "hours"; "time";
   "damansara"; "petaling jaya"; "kuala lumpur"; "pj"; "kl"].

Lemma span_app (p : ascii -> bool) (s : string) :
  s = (fst (span p s) +:+ snd (span p s))%string.
Proof.
  induction s as [|c s IH]; simpl; [reflexivity|].
  destruct (p c); [|reflexivity].
  destruct (span p s) as [a b]. simpl in IH |- *. rewrite IH at 1. reflexivity.
Qed.

Lemma existsb_app (q : ascii -> bool) (a b : string) :
  string_existsb q (a +:+ b) = (string_existsb q a || string_existsb q b)%bool.
Proof.
  induction a as [|c a IH]; simpl; [reflexivity|].
  rewrite IH, orb_assoc. reflexivity.
Qed.

Lemma strip_prefix_app (p s r : string) :
  strip_prefix p s = Some r -> s = (p +:+ r)%string.
Proof.
  revert s. induction p as [|c p IH]; intros s; simpl.
  - intros H; injection H as <-. reflexivity.
  - destruct s as [|d s]; [discriminate|].
    destruct (Ascii.eqb_spec c d); [subst|discriminate].
    intros H. rewrite (IH s H). reflexivity.
Qed.

Lemma existsb_suffix (q : ascii -> bool) (pre t : string) :
  string_existsb q t = true -> string_existsb q (pre +:+ t) = true.
Proof. intros H. rewrite existsb_app, H. apply orb_true_r. Qed.

Lemma existsb_prefix (q : ascii -> bool) (a b : string) :
  string_existsb q a = true -> string_existsb q (a +:+ b) = true.
Proof. intros H. rewrite existsb_app, H. reflexivity. Qed.

Lemma span_nonempty_digit (s : string) :
  str_is_empty (fst (span is_digit s)) = false -> string_existsb is_digit s = true.
Proof.
  destruct s as [|c s]; simpl; [discriminate|].
  destruct (is_digit c) eqn:Hc; simpl; [reflexivity|discriminate].
Qed.

Lemma sym_at_digit (s : string) x :
  sym_at s = Some x -> string_existsb is_digit s = true.
Proof.
  unfold sym_at. pose proof (span_nonempty_digit s) as D.
  destruct (span is_digit s) as [d1 r1]; simpl in D.
  destruct (str_is_empty d1); [discriminate|]. intros _. auto.
Qed.

Lemma what_is_at_digit (s : string) x :
  what_is_at s = Some x -> string_existsb is_digit s = true.
Proof.
  unfold what_is_at. destruct (strip_prefix _ s) as [r|] eqn:E; [|discriminate].
  intros H. rewrite (strip_prefix_app _ _ _ E).
  apply existsb_suffix, (sym_at_digit _ _ H).
Qed.

Lemma nl_at_digit (s : string) x :
  nl_at s = Some x -> string_existsb is_digit s = true.
Proof.
  unfold nl_at. pose proof (span_nonempty_digit s) as D.
  destruct (span is_digit s) as [d1 r1]; simpl in D.
  destruct (str_is_empty d1); [discriminate|]. intros _. auto.
Qed.

Lemma whats_at_digit (s : string) :
  whats_at s = true -> string_existsb is_digit s = true.
Proof.
  unfold whats_at. destruct (strip_prefix _ s) as [[|c r]|] eqn:E; try discriminate.
  intros H. apply andb_true_iff in H as [_ H].
  rewrite (strip_prefix_app _ _ _ E). apply existsb_suffix.
  simpl. rewrite (span_app (fun x => is_word x || is_space x)%bool r).
  rewrite existsb_app, H. apply orb_true_r.
Qed.

Lemma ss_at_digit (s : string) :
  ss_at s = true -> string_existsb is_digit s = true.
Proof.
  unfold ss_at. destruct (strip_prefix _ s) as [r|] eqn:E; [|discriminate].
  destruct (snd (span is_space r)) as [|c t] eqn:Er; [discriminate|].
  intros Hc. rewrite (strip_prefix_app _ _ _ E). apply existsb_suffix.
  rewrite (span_app is_space r), Er. apply existsb_suffix. simpl. rewrite Hc. reflexivity.
Qed.

Lemma search_digit {A} (f : string -> option A) (s : string) :
  (forall t a, f t = Some a -> string_existsb is_digit t = true) ->
  string_existsb is_digit s = false -> search f s = None.
Proof.
  intros Hf Hs. destruct (search f s) as [a|] eqn:E; [|reflexivity].
  destruct (search_suffix _ _ _ E) as (pre & t & -> & Ht).
  rewrite (existsb_suffix _ pre t (Hf _ _ Ht)) in Hs. discriminate.
Qed.

Lemma search_b_digit (f : string -> bool) (s : string) :
  (forall t, f t = true -> string_existsb is_digit t = true) ->
  string_existsb is_digit s = false -> search_b f s = false.
Proof.
  intros Hf Hs. destruct (search_b f s) eqn:E; [|reflexivity].
  destruct (search_b_suffix _ _ E) as (pre & t & -> & Ht).
  rewrite (existsb_suffix _ pre t (Hf _ Ht)) in Hs. discriminate.
Qed.

Lemma is_digit_lower_char (c : ascii) : is_digit (lower_char c) = is_digit c.
Proof.
  destruct c as [b0 b1 b2 b3 b4 b5 b6 b7].
  destruct b0, b1, b2, b3, b4, b5, b6, b7; reflexivity.
Qed.

Lemma lower_no_digit (s : string) :
  string_existsb is_digit (lower s) = string_existsb is_digit s.
Proof.
  induction s as [|c s IH]; simpl; [reflexivity|]. rewrite is_digit_lower_char, IH. reflexivity.
Qed.

(** C2 fails: "where is the store?" has no digit and no arithmetic keyword
    but is classified [OUTLET_INFO] by the outlet keyword "store". *)
Lemma analyze_intent_no_digit_cex :
  string_existsb is_digit "where is the store?" = false /\
  contains_any arithmetic_keywords (lower "where is the store?") = false /\
  analyze_intent "where is the store?" = OUTLET_INFO.
Proof. vm_compute. auto. Qed.

(** C2, amended: an input with no digit, none of the arithmetic keywords
    and none of the outlet keywords (checked on the lower-cased text) is
    classified [GENERAL_CHAT].  Inputs containing "what's" are left out,
    their outcome neither promised nor denied: the pattern
    [what\'s|whats\s+[\w\s]*\d+] is meant to require a number after
    "what's" (its comment: "what's 10 * 2"), but the alternation lets a
    bare "what's" match (see [analyze_intent_whats_up]). *)
Theorem analyze_intent_general_chat (user_input : string) :
  string_existsb is_digit user_input = false ->
  contains_any arithmetic_keywords (lower user_input) = false ->
  contains_any outlet_keywords (lower user_input) = false ->
  contains "what's" (lower user_input) = false ->
  analyze_intent user_input = GENERAL_CHAT.
Proof.
  intros Hd Ha Ho Hw.
  rewrite <- lower_no_digit in Hd. unfold analyze_intent.
  set (l := lower user_input) in *.
  unfold arithmetic_keywords, outlet_keywords, contains_any in *. simpl in Ha, Ho.
  repeat match goal with
         | H : (_ || _)%bool = false |- _ => apply orb_false_iff in H as [? ?]
         end.
  simpl. unfold contains_any; simpl.
  rewrite (search_digit sym_at l sym_at_digit Hd),
          (search_digit what_is_at l what_is_at_digit Hd),
          (search_digit nl_at l nl_at_digit Hd),
          (search_b_digit whats_at l whats_at_digit Hd),
          (search_b_digit ss_at l ss_at_digit Hd), Hw.
  repeat match goal with
         | H : contains _ l = false |- _ => rewrite H; clear H
         end.
  reflexivity.
Qed.

Lemma analyze_intent_general_chat_witness :
  analyze_intent "Hello there, how are you?" = GENERAL_CHAT.
Proof.
  apply analyze_intent_general_chat; vm_compute; reflexivity.
Defined.

(** The slip in the sixth calculation pattern: [|] binds loosest, so its
    first alternative is the bare literal [what's], and a greeting with no
    number is classified as a calculation, against the pattern's comment
    ("what's 10 * 2", "what's the sum of 5 and 3") and spec 4.1
    ("what's/what is ... <number>"). *)
Example analyze_intent_whats_up : analyze_intent "What's up?" = CALCULATION.
Proof. vm_compute. reflexivity. Qed.

(* ------------------------------------------------------------------ *)
(** ** The session store *)

Lemma plan_ask_has_prompt (user_input : string) (pr : PlanningResult) :
  plan_next_action user_input = Ok pr -> action pr = ASK_FOR_INFO ->
  exists m, missing_info pr = Some m.
Proof.
  unfold plan_next_action, mbind, exc_bind. intros H Ha.
  repeat (case_match; simplify_eq/=); eauto.
Qed.

(** What one call does to the store: on return it has appended the
    exchange to the session's history object; on an exception the store is
    unchanged, or the session has only been registered. *)
Lemma process_effect str_true_div complete (st : controller) (user_input sid : string) :
  let '(r, st1) := get_session_history st sid in
  match process_user_input str_true_div complete st user_input sid with
  | (Ok resp, st') => st' = add_message (add_message st1 r (Human, user_input)) r (AI, resp)
  | (Raise _, st') => st' = st \/ st' = st1
  end.
Proof.
  unfold process_user_input.
  destruct (get_session_history st sid) as [r st1] eqn:G.
  destruct (plan_next_action user_input) as [pr|e] eqn:P; [|auto].
  destruct (action pr) eqn:A.
  - destruct (plan_ask_has_prompt _ _ P A) as [m ->].
    unfold record_exchange. rewrite G. reflexivity.
  - lazymatch goal with
    | |- context [match ?resp with Ok s => _ | Raise e => _ end] => destruct resp
    end; [|auto].
    unfold record_exchange. rewrite G. reflexivity.
  - lazymatch goal with
    | |- context [match ?resp with Ok s => _ | Raise e => _ end] => destruct resp
    end; [|auto].
    unfold record_exchange. rewrite G. reflexivity.
  - unfold invoke_with_history. rewrite G.
    destruct (complete _ _); auto.
Qed.

Lemma add_message_store st r m : history_store (add_message st r m) = history_store st.
Proof. reflexivity. Qed.

Lemma add_message_heap_eq st r m :
  heap (add_message st r m) !! r = (fun ms => ms ++ [m]) <$> heap st !! r.
Proof. apply lookup_alter_eq. Qed.

Lemma add_message_heap_ne st r r' m :
  r <> r' -> heap (add_message st r m) !! r' = heap st !! r'.
Proof. intros H. apply lookup_alter_ne, H. Qed.

(** [sid] is absent, or registered with an allocated history object. *)
Definition session_allocated (st : controller) (sid : string) : Prop :=
  match history_store st !! sid with
  | None => True
  | Some r => is_Some (heap st !! r)
  end.

Lemma get_session_history_allocated st sid :
  session_allocated st sid ->
  let '(r, st1) := get_session_history st sid in
  history_store st1 !! sid = Some r /\ heap st1 !! r = Some (session_messages st sid).
Proof.
  unfold session_allocated, get_session_history, session_messages, messages_of.
  destruct (history_store st !! sid) as [r|] eqn:E.
  - intros [ms Hms]. rewrite E, Hms. auto.
  - intros _. simpl. split; apply lookup_insert_eq.
Qed.

(** The exchange a call leaves in its session's history. *)
Definition exchange (user_input : string) (out : exc string) : list message :=
  match out with
  | Ok resp => [(Human, user_input); (AI, resp)]
  | Raise _ => []
  end.

Lemma process_session_messages str_true_div complete st user_input sid :
  session_allocated st sid ->
  let '(out, st') := process_user_input str_true_div complete st user_input sid in
  session_allocated st' sid /\
  session_messages st' sid = session_messages st sid ++ exchange user_input out.
Proof.
  intros Hs. pose proof (process_effect str_true_div complete st user_input sid) as E.
  pose proof (get_session_history_allocated st sid Hs) as G.
  destruct (get_session_history st sid) as [r st1].
  destruct G as [G1 G2].
  destruct (process_user_input _ _ st user_input sid) as [[resp|e] st'].
  - subst st'. unfold session_allocated, session_messages, messages_of.
    rewrite !add_message_store, G1, !add_message_heap_eq, G2. simpl.
    rewrite <- app_assoc. split; [eexists|]; reflexivity.
  - simpl. rewrite app_nil_r.
    destruct E as [-> | ->]; [auto|].
    unfold session_allocated, session_messages, messages_of.
    rewrite G1, G2. split; [eexists|]; reflexivity.
Qed.

Fixpoint exchanges (inputs : list string) (outs : list (exc string)) : list message :=
  match inputs, outs with
  | i :: inputs', o :: outs' => exchange i o ++ exchanges inputs' outs'
  | _, _ => []
  end.

Lemma run_session_messages str_true_div complete inputs : forall st sid,
  session_allocated st sid ->
  let '(outs, st') := run_session str_true_div complete st sid inputs in
  length outs = length inputs /\
  session_messages st' sid = session_messages st sid ++ exchanges inputs outs.
Proof.
  induction inputs as [|i inputs IH]; intros st sid Hs; simpl.
  - rewrite app_nil_r. auto.
  - pose proof (process_session_messages str_true_div complete st i sid Hs) as P.
    destruct (process_user_input _ _ st i sid) as [out st1].
    destruct P as [Hs1 E1].
    pose proof (IH st1 sid Hs1) as R.
    destruct (run_session _ _ st1 sid inputs) as [outs st2].
    destruct R as [Hl E2]. simpl. rewrite E2, E1, app_assoc. auto.
Qed.

Definition returned (out : exc string) : Prop :=
  match out with Ok _ => True | Raise _ => False end.

(** When every call returned, the exchanges are N (user, agent) pairs. *)
Lemma exchanges_alternate (inputs : list string) (outs : list (exc string)) :
  length outs = length inputs -> Forall returned outs ->
  let h := exchanges inputs outs in
  length h = (2 * length inputs)%nat /\
  forall k, (k < length inputs)%nat ->
    fst <$> h !! (2 * k)%nat = Some Human /\ fst <$> h !! (2 * k + 1)%nat = Some AI.
Proof.
  revert outs. induction inputs as [|i inputs IH]; intros outs Hl Hr; cbv zeta.
  - split; [destruct outs; reflexivity|]. intros k Hk. simpl in Hk. lia.
  - destruct outs as [|[resp|e] outs]; [discriminate| |].
    + inversion Hr as [|? ? _ Hr']; subst. simpl in Hl.
      destruct (IH outs ltac:(lia) Hr') as [IHl IHk].
      split; [simpl; lia|].
      intros [|k] Hk; [split; reflexivity|].
      replace (2 * S k)%nat with (S (S (2 * k))) by lia.
      replace (2 * S k + 1)%nat with (S (S (2 * k + 1))) by lia.
      simpl. apply (IHk k). simpl in Hk. lia.
    + inversion Hr as [|? ? Hf _]; contradiction.
Qed.

(** ** Claim C6 *)

(** C6: on a session not yet registered, after a sequence of N calls to
    [process_user_input] that all return, the session's history has length
    2N, with the user's message at every even index and the agent's reply
    at every odd index.  In general the history is the concatenation of
    the (user, agent) pairs of the calls that returned: a call whose
    completion service raises propagates the exception and appends
    nothing. *)
Theorem session_turns_alternate str_true_div complete
  (st : controller) (sid : string) (inputs : list string) :
  history_store st !! sid = None ->
  match run_session str_true_div complete st sid inputs with
  | (outs, st') =>
      session_messages st' sid = exchanges inputs outs /\
      (Forall returned outs ->
       let h := session_messages st' sid in
       length h = (2 * length inputs)%nat /\
       forall k, (k < length inputs)%nat ->
         fst <$> h !! (2 * k)%nat = Some Human /\ fst <$> h !! (2 * k + 1)%nat = Some AI)
  end.
Proof.
  intros Hnone.
  assert (Hs : session_allocated st sid) by (unfold session_allocated; rewrite Hnone; exact I).
  pose proof (run_session_messages str_true_div complete inputs st sid Hs) as R.
  destruct (run_session _ _ st sid inputs) as [outs st'].
  destruct R as [Hl E]. unfold session_messages at 2 in E. rewrite Hnone in E.
  simpl in E. rewrite E. split; [reflexivity|].
  intros Hr. exact (exchanges_alternate inputs outs Hl Hr).
Qed.

Lemma session_turns_alternate_witness :
  history_store new_controller !! "s" = None /\
  match run_session (fun _ _ => Ok "4.0") (fun _ _ => Ok "Hello!") new_controller "s"
          ["Hi"; "What is 8 / 2"; "Is there an outlet in PJ?"] with
  | (outs, st') =>
      session_messages st' "s" = exchanges ["Hi"; "What is 8 / 2"; "Is there an outlet in PJ?"] outs /\
      (Forall returned outs ->
       let h := session_messages st' "s" in
       length h = (2 * length ["Hi"; "What is 8 / 2"; "Is there an outlet in PJ?"])%nat /\
       forall k, (k < length ["Hi"; "What is 8 / 2"; "Is there an outlet in PJ?"])%nat ->
         fst <$> h !! (2 * k)%nat = Some Human /\ fst <$> h !! (2 * k + 1)%nat = Some AI)
  end.
Proof.
  split; [reflexivity|].
  exact (session_turns_alternate (fun _ _ => Ok "4.0") (fun _ _ => Ok "Hello!") new_controller "s"
           ["Hi"; "What is 8 / 2"; "Is there an outlet in PJ?"] eq_refl).
Defined.

(** ** Claim C7 *)

Lemma get_session_history_present st sid r :
  history_store st !! sid = Some r -> get_session_history st sid = (r, st).
Proof. intros H. unfold get_session_history. rewrite H. reflexivity. Qed.

Lemma get_session_history_keeps st sid sid' r :
  history_store st !! sid = Some r ->
  history_store (snd (get_session_history st sid')) !! sid = Some r.
Proof.
  intros H. unfold get_session_history.
  destruct (history_store st !! sid') eqn:E; [exact H|]. simpl.
  rewrite lookup_insert_ne; [exact H|]. intros ->. congruence.
Qed.

Lemma process_keeps str_true_div complete st user_input sid sid' r :
  history_store st !! sid = Some r ->
  history_store (snd (process_user_input str_true_div complete st user_input sid')) !! sid = Some r.
Proof.
  intros H. pose proof (process_effect str_true_div complete st user_input sid') as E.
  pose proof (get_session_history_keeps st sid sid' r H) as G.
  destruct (get_session_history st sid') as [r' st1].
  destruct (process_user_input _ _ st user_input sid') as [[resp|e] st']; simpl in *.
  - subst st'. exact G.
  - destruct E as [-> | ->]; assumption.
Qed.

Lemma run_ops_keeps str_true_div complete ops : forall st sid r,
  history_store st !! sid = Some r ->
  history_store (run_ops str_true_div complete st ops) !! sid = Some r.
Proof.
  induction ops as [|o ops IH]; intros st sid r H; simpl; [exact H|].
  apply IH. destruct o as [sid'|i sid']; simpl.
  - apply get_session_history_keeps, H.
  - apply process_keeps, H.
Qed.

(** C7: the first [get_session_history] on an unseen id creates and
    registers an empty history object; every later call with that id,
    after any calls on the controller in between, returns that very object
    and changes nothing. *)
Theorem get_session_history_idempotent str_true_div complete (st : controller) (sid : string) :
  history_store st !! sid = None ->
  match get_session_history st sid with
  | (r, st1) =>
      heap st1 !! r = Some [] /\ history_store st1 !! sid = Some r /\
      forall ops : list op,
        get_session_history (run_ops str_true_div complete st1 ops) sid =
          (r, run_ops str_true_div complete st1 ops)
  end.
Proof.
  intros H. unfold get_session_history at 1. rewrite H. simpl.
  split; [apply lookup_insert_eq|]. split; [apply lookup_insert_eq|].
  intros ops. apply get_session_history_present, run_ops_keeps. apply lookup_insert_eq.
Qed.

Lemma get_session_history_idempotent_witness :
  history_store new_controller !! "s" = None /\
  match get_session_history new_controller "s" with
  | (r, st1) =>
      heap st1 !! r = Some [] /\ history_store st1 !! "s" = Some r /\
      forall ops : list op,
        get_session_history (run_ops (fun _ _ => Ok "4.0") (fun _ _ => Ok "Hello!") st1 ops) "s" =
          (r, run_ops (fun _ _ => Ok "4.0") (fun _ _ => Ok "Hello!") st1 ops)
  end.
Proof.
  split; [reflexivity|].
  exact (get_session_history_idempotent (fun _ _ => Ok "4.0") (fun _ _ => Ok "Hello!")
           new_controller "s" eq_refl).
Defined.

(** ** Claim C8 *)

(** Every registered history object is below [next_ref], and no two
    sessions share one. *)
Definition store_wf (st : controller) : Prop :=
  (forall s r, history_store st !! s = Some r -> (r < next_ref st)%nat) /\
  (forall s1 s2 r, history_store st !! s1 = Some r -> history_store st !! s2 = Some r -> s1 = s2).

Lemma new_controller_wf : store_wf new_controller.
Proof. split; intros *; simpl; rewrite lookup_empty; discriminate. Qed.

Lemma get_session_history_wf st sid :
  store_wf st -> store_wf (snd (get_session_history st sid)).
Proof.
  intros [Hlt Hinj]. unfold get_session_history.
  destruct (history_store st !! sid) eqn:E; [split; assumption|].
  unfold store_wf. cbn [snd history_store heap next_ref].
  split.
  - intros s r. rewrite lookup_insert.
    case_decide; [intros Hr; injection Hr as <-; lia|].
    intros Hr. specialize (Hlt _ _ Hr). lia.
  - intros s1 s2 r. rewrite !lookup_insert.
    case_decide as D1; case_decide as D2; try congruence.
    + intros Hr H2. injection Hr as <-. specialize (Hlt _ _ H2). lia.
    + intros H1 Hr. injection Hr as <-. specialize (Hlt _ _ H1). lia.
    + apply Hinj.
Qed.

Lemma add_message_wf st r m : store_wf st -> store_wf (add_message st r m).
Proof. intros H. exact H. Qed.

Lemma process_wf str_true_div complete st user_input sid :
  store_wf st -> store_wf (snd (process_user_input str_true_div complete st user_input sid)).
Proof.
  intros H. pose proof (process_effect str_true_div complete st user_input sid) as E.
  pose proof (get_session_history_wf st sid H) as G.
  destruct (get_session_history st sid) as [r st1].
  destruct (process_user_input _ _ st user_input sid) as [[resp|e] st']; simpl in *.
  - subst st'. apply add_message_wf, add_message_wf, G.
  - destruct E as [-> | ->]; assumption.
Qed.

Lemma run_ops_wf str_true_div complete ops : forall st,
  store_wf st -> store_wf (run_ops str_true_div complete st ops).
Proof.
  induction ops as [|o ops IH]; intros st H; simpl; [exact H|].
  apply IH. destruct o; simpl; [apply get_session_history_wf | apply process_wf]; exact H.
Qed.

Lemma get_session_history_frame st A B :
  store_wf st -> A <> B ->
  session_messages (snd (get_session_history st A)) B = session_messages st B.
Proof.
  intros [Hlt _] Hne. unfold get_session_history.
  destruct (history_store st !! A) eqn:E; [reflexivity|].
  unfold session_messages, messages_of. cbn [snd history_store heap next_ref].
  rewrite lookup_insert_ne by congruence.
  destruct (history_store st !! B) as [rB|] eqn:EB; [|reflexivity].
  rewrite lookup_insert_ne; [reflexivity|].
  specialize (Hlt _ _ EB). lia.
Qed.

Lemma add_message_frame st A B rA m :
  store_wf st -> A <> B -> history_store st !! A = Some rA ->
  session_messages (add_message st rA m) B = session_messages st B.
Proof.
  intros [_ Hinj] Hne HA. unfold session_messages, messages_of.
  rewrite add_message_store.
  destruct (history_store st !! B) as [rB|] eqn:EB; [|reflexivity].
  rewrite add_message_heap_ne; [reflexivity|].
  intros ->. apply Hne, (Hinj _ _ _ HA EB).
Qed.

Lemma process_frame str_true_div complete st user_input A B :
  store_wf st -> A <> B ->
  session_messages (snd (process_user_input str_true_div complete st user_input A)) B =
    session_messages st B.
Proof.
  intros Hwf Hne. pose proof (process_effect str_true_div complete st user_input A) as E.
  pose proof (get_session_history_wf st A Hwf) as Gwf.
  pose proof (get_session_history_frame st A B Hwf Hne) as GF.
  assert (GA : history_store (snd (get_session_history st A)) !! A =
               Some (fst (get_session_history st A))).
  { unfold get_session_history. destruct (history_store st !! A) eqn:EA; [exact EA|].
    apply lookup_insert_eq. }
  destruct (get_session_history st A) as [rA st1]. simpl in *.
  destruct (process_user_input _ _ st user_input A) as [[resp|e] st']; simpl in *.
  - subst st'.
    rewrite (add_message_frame _ A B rA) by (try apply add_message_wf; assumption).
    rewrite (add_message_frame _ A B rA) by assumption.
    exact GF.
  - destruct E as [-> | ->]; [reflexivity | exact GF].
Qed.

(** C8: in any state the controller reaches, a call to
    [process_user_input] under session A leaves the history seen under any
    other session B unchanged. *)
Theorem session_isolation str_true_div complete (ops : list op) (A B user_input : string) :
  A <> B ->
  let st := run_ops str_true_div complete new_controller ops in
  session_messages (snd (process_user_input str_true_div complete st user_input A)) B =
    session_messages st B.
Proof.
  intros Hne st. apply process_frame; [|exact Hne].
  apply run_ops_wf, new_controller_wf.
Qed.

Lemma session_isolation_witness :
  "A" <> "B" /\
  let st := run_ops (fun _ _ => Ok "4.0") (fun _ _ => Ok "Hello!") new_controller
              [ProcessInput "Hi" "B"; ProcessInput "SS 2, whats the opening time?" "A"] in
  session_messages (snd (process_user_input (fun _ _ => Ok "4.0") (fun _ _ => Ok "Hello!")
                          st "What about the closing time?" "A")) "B" =
    session_messages st "B".
Proof.
  assert (H : "A" <> "B") by discriminate.
  split; [exact H|].
  exact (session_isolation (fun _ _ => Ok "4.0") (fun _ _ => Ok "Hello!")
           [ProcessInput "Hi" "B"; ProcessInput "SS 2, whats the opening time?" "A"]
           "A" "B" "What about the closing time?" H).
Defined.

(* ================================================================== *)
(** * Further properties of the planner and the controller *)

(** ** [extract_outlet_data] *)

Definition location_values : list pyval :=
  [PyNone; PyStr "SS2"; PyStr "SS15"; PyStr "Damansara"; PyStr "Petaling Jaya"; PyStr "Kuala Lumpur"].

Definition info_type_values : list pyval :=
  [PyNone; PyStr "opening_hours"; PyStr "closing_hours"; PyStr "hours"].

Lemma extract_outlet_data_shape (user_input : string) :
  extract_outlet_data user_input = None \/
  exists loc info,
    extract_outlet_data user_input = Some [("location", loc); ("info_type", info)] /\
    In loc location_values /\ In info info_type_values /\
    (loc <> PyNone \/ info <> PyNone).
Proof.
  unfold extract_outlet_data.
  repeat case_match; simplify_eq/=;
    first [ left; reflexivity
          | right; eexists _, _; split; [reflexivity|];
            split; [simpl; tauto|]; split; [simpl; tauto|];
            first [left; discriminate | right; discriminate] ].
Qed.

(** [extract_outlet_data] returns [None] or the two-key dict
    [{location, info_type}], each slot one of its fixed values or [None],
    and not both [None]. *)
Theorem extract_outlet_data_range (user_input : string) :
  extract_outlet_data user_input = None \/
  exists loc info,
    extract_outlet_data user_input = Some [("location", loc); ("info_type", info)] /\
    In loc location_values /\ In info info_type_values /\
    (loc <> PyNone \/ info <> PyNone).
Proof. exact (extract_outlet_data_shape user_input). Qed.

(** ** [plan_next_action] *)

(** Case analysis on the outlet extraction of [user_input]: either [None]
    or one of the concrete dicts allowed by [extract_outlet_data_shape]. *)
Ltac outlet_cases user_input :=
  let Eo := fresh "Eo" in
  let Hl := fresh "Hl" in
  let Hi := fresh "Hi" in
  let Hn := fresh "Hn" in
  destruct (extract_outlet_data_shape user_input)
    as [Eo|(? & ? & Eo & Hl & Hi & Hn)]; rewrite ?Eo in *;
  [| simpl in Hl, Hi; decompose [or False] Hl; decompose [or False] Hi; subst ].

Lemma plan_next_action_ok (user_input : string) :
  exists r, plan_next_action user_input = Ok r /\ intent r = analyze_intent user_input.
Proof.
  unfold plan_next_action, mbind, exc_bind.
  destruct (analyze_intent user_input).
  - case_match; eauto.
  - outlet_cases user_input; simpl; eauto.
  - eauto.
  - eauto.
Qed.

(** [plan_next_action] never raises: every [.replace] and [[...]] it
    evaluates is applied to a present string slot; its intent is that of
    [analyze_intent]. *)
Theorem plan_next_action_total (user_input : string) :
  exists r, plan_next_action user_input = Ok r /\ intent r = analyze_intent user_input.
Proof. exact (plan_next_action_ok user_input). Qed.

(** Unfold [plan_next_action user_input = Ok r] into its concrete cases. *)
Ltac plan_invert user_input H :=
  let Ei := fresh "Ei" in
  unfold plan_next_action, mbind, exc_bind in H;
  destruct (analyze_intent user_input) eqn:Ei;
  [ destruct (extract_calculation_data user_input) as [[|? ?]|] eqn:?;
    simpl in H; injection H as <-
  | outlet_cases user_input; simpl in H; injection H as <-
  | injection H as <-
  | injection H as <- ].

Lemma analyze_intent_not_unknown (user_input : string) :
  analyze_intent user_input <> UNKNOWN.
Proof. unfold analyze_intent. repeat case_match; discriminate. Qed.

(** The action follows the intent: the planner never reports [UNKNOWN],
    answers directly exactly for [GENERAL_CHAT], uses the calculator only
    for [CALCULATION] and the outlet database only for [OUTLET_INFO]. *)
Theorem plan_action_by_intent (user_input : string) (r : PlanningResult) :
  plan_next_action user_input = Ok r ->
  intent r <> UNKNOWN /\
  (action r = RESPOND_DIRECTLY <-> intent r = GENERAL_CHAT) /\
  (action r = USE_CALCULATOR -> intent r = CALCULATION) /\
  (action r = USE_OUTLET_DB -> intent r = OUTLET_INFO).
Proof.
  intros H. pose proof (plan_next_action_ok user_input) as [r' [H' Hi]].
  rewrite H in H'. injection H' as <-. rewrite Hi.
  pose proof (analyze_intent_not_unknown user_input) as Hu.
  plan_invert user_input H; simpl;
    repeat split; intros; try discriminate; try congruence.
Qed.

Lemma plan_action_by_intent_witness :
  plan_next_action "What is 8 / 2" = Ok (
    {| intent := CALCULATION; action := USE_CALCULATOR; missing_info := None;
       extracted_data := Some (calc_dict 8 "/" 2); confidence := 9 # 10 |}) /\
  intent {| intent := CALCULATION; action := USE_CALCULATOR; missing_info := None;
            extracted_data := Some (calc_dict 8 "/" 2); confidence := 9 # 10 |} <> UNKNOWN.
Proof.
  assert (H : plan_next_action "What is 8 / 2" = Ok (
    {| intent := CALCULATION; action := USE_CALCULATOR; missing_info := None;
       extracted_data := Some (calc_dict 8 "/" 2); confidence := 9 # 10 |}))
    by (vm_compute; reflexivity).
  split; [exact H|].
  exact (proj1 (plan_action_by_intent _ _ H)).
Defined.

(** For a calculation, the plan carries the extraction's result as it is,
    and uses the calculator exactly when the extraction found a
    calculation (confidence 0.9); otherwise it asks for the operands with
    confidence 0.8. *)
Theorem plan_calculation_uses_extraction (user_input : string) (r : PlanningResult) :
  analyze_intent user_input = CALCULATION ->
  plan_next_action user_input = Ok r ->
  extracted_data r = extract_calculation_data user_input /\
  (action r = USE_CALCULATOR <-> extract_calculation_data user_input <> None) /\
  (extract_calculation_data user_input = None ->
   action r = ASK_FOR_INFO /\ missing_info r = Some calc_prompt /\ confidence r = 8 # 10).
Proof.
  intros Hc H. unfold plan_next_action in H. rewrite Hc in H.
  destruct (extract_calculation_data_complete user_input) as [E|(n1 & o & n2 & E & _)];
    rewrite E in H |- *; simpl in H; injection H as <-; simpl.
  - split; [reflexivity|]. split; [split; [discriminate|congruence]|]. auto.
  - split; [reflexivity|]. split; [split; [discriminate|auto]|]. discriminate.
Qed.

Lemma plan_calculation_uses_extraction_witness :
  analyze_intent "please calculate" = CALCULATION /\
  plan_next_action "please calculate" =
    Ok {| intent := CALCULATION; action := ASK_FOR_INFO; missing_info := Some calc_prompt;
          extracted_data := None; confidence := 8 # 10 |} /\
  extracted_data {| intent := CALCULATION; action := ASK_FOR_INFO; missing_info := Some calc_prompt;
                    extracted_data := None; confidence := 8 # 10 |} =
    extract_calculation_data "please calculate".
Proof.
  assert (H1 : analyze_intent "please calculate" = CALCULATION) by (vm_compute; reflexivity).
  assert (H2 : plan_next_action "please calculate" =
    Ok {| intent := CALCULATION; action := ASK_FOR_INFO; missing_info := Some calc_prompt;
          extracted_data := None; confidence := 8 # 10 |}) by (vm_compute; reflexivity).
  split; [exact H1|]. split; [exact H2|].
  exact (proj1 (plan_calculation_uses_extraction _ _ H1 H2)).
Defined.

(** The outlet database is used only for a specific outlet: whenever the
    plan is [USE_OUTLET_DB], its data names SS2, SS15 or Damansara and the
    confidence is 0.9. *)
Theorem plan_outlet_db_specific (user_input : string) (r : PlanningResult) :
  plan_next_action user_input = Ok r ->
  action r = USE_OUTLET_DB ->
  confidence r = 9 # 10 /\
  exists d loc, extracted_data r = Some d /\ dict_get d "location" = PyStr loc /\
                In loc ["SS2"; "SS15"; "Damansara"].
Proof.
  intros H Ha. plan_invert user_input H; simpl in *; try discriminate.
  all: split; [reflexivity|]; eexists _, _; split; [reflexivity|];
       split; [reflexivity|]; simpl; tauto.
Qed.

Lemma plan_outlet_db_specific_witness :
  plan_next_action "damansara closing?" =
    Ok {| intent := OUTLET_INFO; action := USE_OUTLET_DB; missing_info := None;
          extracted_data := Some [("location", PyStr "Damansara"); ("info_type", PyStr "closing_hours")];
          confidence := 9 # 10 |} /\
  confidence {| intent := OUTLET_INFO; action := USE_OUTLET_DB; missing_info := None;
          extracted_data := Some [("location", PyStr "Damansara"); ("info_type", PyStr "closing_hours")];
          confidence := 9 # 10 |} = 9 # 10.
Proof.
  assert (H : plan_next_action "damansara closing?" =
    Ok {| intent := OUTLET_INFO; action := USE_OUTLET_DB; missing_info := None;
          extracted_data := Some [("location", PyStr "Damansara"); ("info_type", PyStr "closing_hours")];
          confidence := 9 # 10 |}) by (vm_compute; reflexivity).
  split; [exact H|].
  exact (proj1 (plan_outlet_db_specific _ _ H eq_refl)).
Defined.

(** A clarifying prompt is set exactly when the plan asks for information;
    the confidence is 0.9 for the two tools, 0.5 for a direct answer, and
    0.7, 0.8 or 0.85 when asking. *)
Theorem plan_prompt_and_confidence (user_input : string) (r : PlanningResult) :
  plan_next_action user_input = Ok r ->
  (missing_info r <> None <-> action r = ASK_FOR_INFO) /\
  match action r with
  | USE_CALCULATOR | USE_OUTLET_DB => confidence r = 9 # 10
  | RESPOND_DIRECTLY => confidence r = 1 # 2
  | ASK_FOR_INFO => In (confidence r) [7 # 10; 8 # 10; 85 # 100]
  end.
Proof.
  intros H. plan_invert user_input H; simpl;
    (split; [split; intros; congruence | simpl; tauto]).
Qed.

Lemma plan_prompt_and_confidence_witness :
  plan_next_action "Is there an outlet in Petaling Jaya?" =
    Ok {| intent := OUTLET_INFO; action := ASK_FOR_INFO;
          missing_info := Some "Yes, we have outlets in Petaling Jaya! Which specific outlet are you referring to?";
          extracted_data := Some [("location", PyStr "Petaling Jaya"); ("info_type", PyNone)];
          confidence := 85 # 100 |} /\
  In (85 # 100) [7 # 10; 8 # 10; 85 # 100].
Proof.
  assert (H : plan_next_action "Is there an outlet in Petaling Jaya?" =
    Ok {| intent := OUTLET_INFO; action := ASK_FOR_INFO;
          missing_info := Some "Yes, we have outlets in Petaling Jaya! Which specific outlet are you referring to?";
          extracted_data := Some [("location", PyStr "Petaling Jaya"); ("info_type", PyNone)];
          confidence := 85 # 100 |}) by (vm_compute; reflexivity).
  split; [exact H|].
  exact (proj2 (plan_prompt_and_confidence _ _ H)).
Defined.

(** ** Case-insensitivity of the planner *)

Ltac all_chars c :=
  destruct c as [b0 b1 b2 b3 b4 b5 b6 b7];
  destruct b0, b1, b2, b3, b4, b5, b6, b7; reflexivity.

Lemma lower_char_idem (c : ascii) : lower_char (lower_char c) = lower_char c.
Proof. all_chars c. Qed.

Lemma lower_idem (s : string) : lower (lower s) = lower s.
Proof. induction s as [|c s IH]; simpl; [reflexivity|]. rewrite lower_char_idem, IH. reflexivity. Qed.

Lemma is_digit_fixed (c : ascii) : is_digit c = true -> lower_char c = c.
Proof. revert c. intros c; destruct c as [b0 b1 b2 b3 b4 b5 b6 b7];
  destruct b0, b1, b2, b3, b4, b5, b6, b7; first [reflexivity | discriminate]. Qed.

Lemma is_space_lower_char (c : ascii) : is_space (lower_char c) = is_space c.
Proof. all_chars c. Qed.

Lemma is_space_fixed (c : ascii) : is_space c = true -> lower_char c = c.
Proof. destruct c as [b0 b1 b2 b3 b4 b5 b6 b7];
  destruct b0, b1, b2, b3, b4, b5, b6, b7; first [reflexivity | discriminate]. Qed.

Lemma is_op_lower_char (c : ascii) : is_op (lower_char c) = is_op c.
Proof. all_chars c. Qed.

Lemma is_op_fixed (c : ascii) : is_op c = true -> lower_char c = c.
Proof. destruct c as [b0 b1 b2 b3 b4 b5 b6 b7];
  destruct b0, b1, b2, b3, b4, b5, b6, b7; first [reflexivity | discriminate]. Qed.

(** A run of characters that lower-casing fixes is found unchanged in the
    lower-cased text. *)
Lemma span_lower (p : ascii -> bool) (s : string) :
  (forall c, p (lower_char c) = p c) -> (forall c, p c = true -> lower_char c = c) ->
  span p (lower s) = (fst (span p s), lower (snd (span p s))).
Proof.
  intros Hp Hf. induction s as [|c s IH]; simpl; [reflexivity|].
  rewrite Hp. destruct (p c) eqn:Hc.
  - rewrite IH, (Hf c Hc). destruct (span p s); reflexivity.
  - reflexivity.
Qed.

Lemma sym_at_lower (s : string) : sym_at (lower s) = sym_at s.
Proof.
  unfold sym_at.
  rewrite (span_lower is_digit s is_digit_lower_char is_digit_fixed).
  destruct (span is_digit s) as [d1 r1]. simpl.
  destruct (str_is_empty d1); [reflexivity|].
  rewrite (span_lower is_space r1 is_space_lower_char is_space_fixed). simpl.
  destruct (snd (span is_space r1)) as [|o r3]; simpl; [reflexivity|].
  rewrite is_op_lower_char. destruct (is_op o) eqn:Ho; [|reflexivity].
  rewrite (span_lower is_space r3 is_space_lower_char is_space_fixed). simpl.
  rewrite (span_lower is_digit _ is_digit_lower_char is_digit_fixed). simpl.
  rewrite (is_op_fixed o Ho). reflexivity.
Qed.

Lemma search_lower {A} (f : string -> option A) (s : string) :
  (forall t, f (lower t) = f t) -> search f (lower s) = search f s.
Proof.
  intros Hf. induction s as [|c s IH]; [exact (f_equal _ eq_refl)|].
  change (lower (String c s)) with (String (lower_char c) (lower s)).
  simpl. change (String (lower_char c) (lower s)) with (lower (String c s)).
  rewrite Hf, IH. reflexivity.
Qed.

Lemma extract_calculation_data_lower (s : string) :
  extract_calculation_data (lower s) = extract_calculation_data s.
Proof.
  unfold extract_calculation_data. rewrite lower_idem, (search_lower sym_at s sym_at_lower).
  reflexivity.
Qed.

(** The planner is case-insensitive: two inputs that agree once lower-cased
    get the same plan, extracted data and prompt included. *)
Theorem plan_next_action_case_insensitive (s1 s2 : string) :
  lower s1 = lower s2 -> plan_next_action s1 = plan_next_action s2.
Proof.
  assert (L : forall s, plan_next_action (lower s) = plan_next_action s).
  { intros s. unfold plan_next_action.
    assert (Ha : analyze_intent (lower s) = analyze_intent s)
      by (unfold analyze_intent; rewrite lower_idem; reflexivity).
    assert (Ho : extract_outlet_data (lower s) = extract_outlet_data s)
      by (unfold extract_outlet_data; rewrite lower_idem; reflexivity).
    rewrite Ha, Ho, extract_calculation_data_lower. reflexivity. }
  intros H. rewrite <- (L s1), <- (L s2), H. reflexivity.
Qed.

Lemma plan_next_action_case_insensitive_witness :
  lower "SS 2, Whats The OPENING time?" = lower "ss 2, whats the opening TIME?" /\
  plan_next_action "SS 2, Whats The OPENING time?" = plan_next_action "ss 2, whats the opening TIME?".
Proof.
  assert (H : lower "SS 2, Whats The OPENING time?" = lower "ss 2, whats the opening TIME?")
    by (vm_compute; reflexivity).
  split; [exact H|]. exact (plan_next_action_case_insensitive _ _ H).
Defined.

(** ** [str(int)] and the integer branches of [perform_simple_calculation] *)

Lemma pos_size_nat_bound (p : positive) : (Npos p < 2 ^ N.of_nat (Pos.size_nat p))%N.
Proof.
  induction p as [p IH|p IH|]; simpl Pos.size_nat; rewrite ?Nat2N.inj_succ, ?N.pow_succ_r';
  [|lia|lia].
  change (N.pos p~1) with (2 * N.pos p + 1)%N. lia.
Qed.

Lemma digits_value_acc_app (a : Z) (s t : string) :
  digits_value_acc a (s +:+ t) = digits_value_acc (digits_value_acc a s) t.
Proof. revert a; induction s as [|c s IH]; intros a; simpl; [reflexivity|apply IH]. Qed.

Lemma digit_char_spec (d : N) :
  (d < 10)%N -> is_digit (digit_char d) = true /\ digit_value (digit_char d) = Z.of_N d.
Proof.
  intros Hd. unfold is_digit, digit_value, digit_char.
  rewrite N_ascii_embedding by lia. split; [apply andb_true_intro; split; apply N.leb_le; lia | lia].
Qed.

Lemma all_digits_app (s t : string) :
  all_digits (s +:+ t) = (all_digits s && all_digits t)%bool.
Proof.
  unfold all_digits. induction s as [|c s IH]; simpl; [reflexivity|].
  rewrite !negb_orb, IH, andb_assoc. reflexivity.
Qed.

Lemma str_length_app (s t : string) : str_length (s +:+ t) = (str_length s + str_length t)%nat.
Proof. induction s as [|c s IH]; simpl; [reflexivity|]; rewrite ?IH; try reflexivity; lia. Qed.

Lemma append_cons (c : ascii) (s t : string) : String c s +:+ t = String c (s +:+ t).
Proof. reflexivity. Qed.

Lemma string_app_assoc (s t u : string) : s +:+ (t +:+ u) = (s +:+ t) +:+ u.
Proof. induction s as [|c s IH]; [reflexivity|]. rewrite !append_cons, IH. reflexivity. Qed.

Lemma dec_rev_spec (f : nat) : forall (n : N) (acc : string),
  (n < 10 ^ N.of_nat f)%N -> f <> O ->
  exists ds, dec_rev f n acc = ds +:+ acc /\ str_length ds <> O /\
    all_digits ds = true /\ digits_value ds = Z.of_N n /\
    (n < 10 ^ N.of_nat (str_length ds))%N /\
    (str_length ds = 1%nat \/ (10 ^ N.of_nat (pred (str_length ds)) <= n)%N).
Proof.
  induction f as [|f IH]; intros n acc Hn Hf; [congruence|].
  destruct (digit_char_spec (n mod 10)) as [Hd Hv]; [apply N.mod_lt; lia|].
  simpl. destruct (N.eqb_spec (n / 10) 0) as [H0|H0].
  - assert (n < 10)%N by (apply N.div_small_iff in H0; lia).
    exists (String (digit_char (n mod 10)) EmptyString). split; [reflexivity|].
    unfold all_digits, digits_value. cbn [str_length string_existsb digits_value_acc].
    rewrite Hd, Hv, N.mod_small by lia. repeat split; auto; lia.
  - destruct f as [|f]; [rewrite Nat2N.inj_succ, N.pow_succ_r' in Hn; simpl in Hn;
      exfalso; apply H0; apply N.div_small; lia|].
    destruct (IH (n / 10)%N (String (digit_char (n mod 10)) acc)) as
      (ds & E & Hl & Ha & Hv' & Hb & Hb'); [|lia|].
    { rewrite Nat2N.inj_succ, N.pow_succ_r' in Hn. apply N.Div0.div_lt_upper_bound; lia. }
    exists (ds +:+ String (digit_char (n mod 10)) EmptyString).
    rewrite E, <- string_app_assoc. split; [reflexivity|].
    rewrite str_length_app, all_digits_app, Ha. simpl.
    unfold all_digits at 1; simpl. rewrite Hd.
    unfold digits_value in *. rewrite digits_value_acc_app, Hv'. simpl. rewrite Hv.
    rewrite Nat.add_1_r. simpl pred. rewrite Nat2N.inj_succ, N.pow_succ_r'.
    pose proof (N.div_mod n 10 ltac:(lia)). pose proof (N.mod_lt n 10 ltac:(lia)).
    repeat split; try reflexivity; try lia.
    right. clear E Hd Hv Hv'. revert Hb Hb' H H1 H0.
    generalize (n / 10)%N (n mod 10)%N. intros q r Hb Hb' H H1 H0.
    destruct Hb' as [Hb'|Hb'].
    + rewrite Hb'. change (10 ^ N.of_nat 1)%N with 10%N. lia.
    + destruct (str_length ds) as [|k]; [lia|]. simpl pred in *.
      rewrite Nat2N.inj_succ, N.pow_succ_r'. lia.
Qed.

Lemma string_app_nil_r (s : string) : s +:+ EmptyString = s.
Proof. induction s as [|c s IH]; [reflexivity|]. rewrite append_cons, IH. reflexivity. Qed.

Lemma dec_N_spec (n : N) :
  exists ds, dec_N n = ds /\ str_length ds <> O /\
    all_digits ds = true /\ digits_value ds = Z.of_N n /\
    (n < 10 ^ N.of_nat (str_length ds))%N /\
    (str_length ds = 1%nat \/ (10 ^ N.of_nat (pred (str_length ds)) <= n)%N).
Proof.
  unfold dec_N.
  destruct (dec_rev_spec (S (N.size_nat n)) n EmptyString) as (ds & E & H); [|lia|].
  - destruct n as [|p]; [simpl; lia|].
    pose proof (pos_size_nat_bound p) as Hp. simpl N.size_nat.
    rewrite Nat2N.inj_succ, N.pow_succ_r'.
    assert (2 ^ N.of_nat (Pos.size_nat p) <= 10 ^ N.of_nat (Pos.size_nat p))%N
      by (apply N.pow_le_mono_l; lia).
    lia.
  - exists ds. rewrite E, string_app_nil_r. split; [reflexivity|exact H].
Qed.

Lemma digits_value_acc_shift (a : Z) (s : string) :
  digits_value_acc a s = a * 10 ^ Z.of_nat (str_length s) + digits_value s.
Proof.
  unfold digits_value. revert a; induction s as [|c s IH]; intros a; simpl; [lia|].
  rewrite IH, (IH (0 * 10 + digit_value c)). rewrite Nat2Z.inj_succ, Z.pow_succ_r by lia. lia.
Qed.

Lemma digits_value_bound (s : string) :
  all_digits s = true -> 0 <= digits_value s < 10 ^ Z.of_nat (str_length s).
Proof.
  unfold all_digits. induction s as [|c s IH]; simpl; [unfold digits_value; simpl; lia|].
  intros H. apply negb_true_iff, orb_false_iff in H as [Hc Hs].
  apply negb_false_iff in Hc. apply negb_true_iff in Hs. specialize (IH Hs).
  unfold digits_value in *. simpl. rewrite digits_value_acc_shift. unfold digits_value.
  unfold is_digit in Hc. apply andb_true_iff in Hc as [H1 H2].
  apply N.leb_le in H1, H2. unfold digit_value.
  rewrite Nat2Z.inj_succ, Z.pow_succ_r by lia. nia.
Qed.

Lemma dec_N_no_leading_zero (n : N) :
  dec_N n = "0" \/ exists c t, dec_N n = String c t /\ c <> "0"%char.
Proof.
  destruct (dec_N_spec n) as (ds & -> & Hl & Ha & Hv & _ & Hb).
  destruct ds as [|c t]; [simpl in Hl; lia|].
  destruct (Ascii.eqb_spec c "0"%char) as [->|Hc]; [|right; eauto].
  left. destruct Hb as [Hb|Hb].
  - destruct t; [reflexivity|simpl in Hb; lia].
  - exfalso. cbn [str_length pred] in Hb.
    assert (Ht : all_digits t = true).
    { unfold all_digits in *; simpl in Ha. exact Ha. }
    apply digits_value_bound in Ht.
    assert (E : digits_value (String "0" t) = digits_value t) by reflexivity.
    apply N2Z.inj_le in Hb. rewrite N2Z.inj_pow, nat_N_Z in Hb. lia.
Qed.

Lemma dec_N_length_bound (n : N) (m : nat) :
  (1 <= m)%nat -> (str_length (dec_N n) <= m)%nat <-> (n < 10 ^ N.of_nat m)%N.
Proof.
  intros Hm. destruct (dec_N_spec n) as (ds & -> & Hl & _ & _ & Hlt & Hb). split.
  - intros Hle. assert (10 ^ N.of_nat (str_length ds) <= 10 ^ N.of_nat m)%N
      by (apply N.pow_le_mono_r; lia). lia.
  - intros Hn. destruct (Nat.le_gt_cases (str_length ds) m) as [|Hgt]; [assumption|exfalso].
    destruct Hb as [Hb|Hb]; [lia|].
    assert (10 ^ N.of_nat m <= 10 ^ N.of_nat (pred (str_length ds)))%N
      by (apply N.pow_le_mono_r; lia). lia.
Qed.

Lemma py_str_int_spec (z : Z) :
  (Z.abs z < 10 ^ Z.of_nat int_max_str_digits ->
   exists ds, py_str_int z = Ok (if z <? 0 then String "-" ds else ds) /\
     dec_N (Z.abs_N z) = ds /\ str_length ds <> O /\ all_digits ds = true /\
     digits_value ds = Z.abs z) /\
  (10 ^ Z.of_nat int_max_str_digits <= Z.abs z ->
   py_str_int z = Raise (ValueError "Exceeds the limit (4300 digits) for integer string conversion; use sys.set_int_max_str_digits() to increase the limit")).
Proof.
  pose proof (dec_N_length_bound (Z.abs_N z) int_max_str_digits ltac:(unfold int_max_str_digits; lia)) as Hlen.
  assert (Hc : (Z.abs z < 10 ^ Z.of_nat int_max_str_digits) <-> (Z.abs_N z < 10 ^ N.of_nat int_max_str_digits)%N).
  { assert (E : 10 ^ Z.of_nat int_max_str_digits = Z.of_N (10 ^ N.of_nat int_max_str_digits))
      by (rewrite N2Z.inj_pow, nat_N_Z; reflexivity).
    rewrite E, <- Zabs2N.id_abs, <- N2Z.inj_lt. reflexivity. }
  destruct (dec_N_spec (Z.abs_N z)) as (ds & Eds & Hl & Ha & Hv & _).
  unfold py_str_int. rewrite Eds in *. split.
  - intros Hz. exists ds. apply Hc, Hlen, Nat.leb_le in Hz. rewrite Hz.
    rewrite Zabs2N.id_abs in Hv. repeat split; assumption.
  - intros Hz. destruct (Nat.leb_spec (str_length ds) int_max_str_digits) as [Hle|]; [|reflexivity].
    apply Hlen, Hc in Hle. lia.
Qed.

(** For [+], [-] and [*], [perform_simple_calculation] returns [str] of the
    exact integer result: its decimal digits without leading zero, after a
    [-] when negative, as long as the result has at most 4300 digits; past
    that, [str] raises and the function returns the error text built from
    the [ValueError]. *)
Theorem perform_simple_calculation_int (str_true_div : Z -> Z -> exc string)
    (num1 : Z) (operator : string) (num2 z : Z) :
  In (operator, z) [("+", num1 + num2); ("-", num1 - num2); ("*", num1 * num2)] ->
  (Z.abs z < 10 ^ 4300 ->
   exists ds, perform_simple_calculation str_true_div num1 operator num2 =
                (if z <? 0 then "-" +:+ ds else ds) /\
     all_digits ds = true /\ ds <> EmptyString /\ digits_value ds = Z.abs z /\
     (ds = "0" \/ exists c t, ds = String c t /\ c <> "0"%char)) /\
  (10 ^ 4300 <= Z.abs z ->
   perform_simple_calculation str_true_div num1 operator num2 =
     "An unexpected error occurred during calculation: Exceeds the limit (4300 digits) for integer string conversion; use sys.set_int_max_str_digits() to increase the limit").
Proof.
  intros Hin.
  assert (Hb : calc_body str_true_div num1 operator num2 = py_str_int z).
  { unfold calc_body. simpl in Hin.
    destruct Hin as [[= <- <-]|[[= <- <-]|[[= <- <-]|[]]]]; reflexivity. }
  unfold perform_simple_calculation. rewrite Hb.
  destruct (py_str_int_spec z) as [Hok Herr].
  change (10 ^ 4300) with (10 ^ Z.of_nat int_max_str_digits). split.
  - intros Hz. destruct (Hok Hz) as (ds & -> & Eds & Hl & Ha & Hv).
    exists ds. split; [destruct (z <? 0); reflexivity|].
    split; [exact Ha|]. split; [destruct ds; simpl in Hl; congruence|].
    split; [exact Hv|]. rewrite <- Eds. apply dec_N_no_leading_zero.
  - intros Hz. rewrite (Herr Hz). reflexivity.
Qed.

Lemma perform_simple_calculation_int_witness :
  In ("*", -42) [("+", 6 + -7); ("-", 6 - -7); ("*", 6 * -7)] /\
  ((Z.abs (-42) < 10 ^ 4300 ->
   exists ds, perform_simple_calculation (fun _ _ => Ok "0.5") 6 "*" (-7) =
                (if -42 <? 0 then "-" +:+ ds else ds) /\
     all_digits ds = true /\ ds <> EmptyString /\ digits_value ds = Z.abs (-42) /\
     (ds = "0" \/ exists c t, ds = String c t /\ c <> "0"%char)) /\
  (10 ^ 4300 <= Z.abs (-42) ->
   perform_simple_calculation (fun _ _ => Ok "0.5") 6 "*" (-7) =
     "An unexpected error occurred during calculation: Exceeds the limit (4300 digits) for integer string conversion; use sys.set_int_max_str_digits() to increase the limit")).
Proof.
  assert (H : In ("*", -42) [("+", 6 + -7); ("-", 6 - -7); ("*", 6 * -7)]) by (simpl; tauto).
  split; [exact H|]. exact (perform_simple_calculation_int (fun _ _ => Ok "0.5") 6 "*" (-7) (-42) H).
Defined.

(** ** [process_user_input] *)

Lemma extract_calculation_data_shape (user_input : string) :
  complete_calc (extract_calculation_data user_input).
Proof.
  unfold extract_calculation_data.
  apply complete_calc_first; [|apply complete_calc_first].
  - destruct (search sym_at user_input) as [[[g1 o] g3]|] eqn:E; [|now left].
    apply try_calc_dict_complete, is_op_cases, (search_sym_op _ _ _ _ E).
  - destruct (search nl_at (lower user_input)) as [[[g1 w] g3]|]; [|now left].
    destruct (operator_map_get w) as [sym|] eqn:Ew; [|now left].
    apply try_calc_dict_complete, (operator_map_get_op _ _ Ew).
  - destruct (search what_is_at (lower user_input)) as [[[g1 o] g3]|] eqn:E; [|now left].
    apply try_calc_dict_complete, is_op_cases, (search_what_is_op _ _ _ _ E).
Qed.

Lemma calc_args_calc_dict (num1 : Z) (operator : string) (num2 : Z) :
  calc_args (calc_dict num1 operator num2) = Ok (num1, operator, num2).
Proof. reflexivity. Qed.

(** [get_mock_outlet_info] never raises when the location and the info
    type are strings or [None]: the [KeyError] of a missing hours slot is
    unreachable, since the only rows without hours are the general areas,
    answered before any slot is read. *)
Theorem get_mock_outlet_info_total (location info_type : pyval) :
  (forall z, location <> PyInt z) -> (forall z, info_type <> PyInt z) ->
  exists s, get_mock_outlet_info location info_type = Ok s.
Proof.
  intros Hl Hi. unfold get_mock_outlet_info.
  destruct (py_truthy location) eqn:T; simpl; [|eauto].
  destruct location as [|z|l]; [discriminate|destruct (Hl z eq_refl)|].
  unfold location_map_get.
  destruct (find (fun kv => String.eqb l (fst kv)) location_map) as [[k row]|] eqn:F;
    simpl; [|eauto].
  apply find_some in F as [Hin Hk]. simpl in Hk. apply String.eqb_eq in Hk. subst k.
  simpl in Hin. decompose [or False] Hin; simplify_eq; simpl; [| | |eauto|eauto].
  all: destruct info_type as [|z|t]; [eauto|destruct (Hi z eq_refl)|].
  all: simpl; repeat case_match; eauto.
Qed.

Lemma get_mock_outlet_info_total_witness :
  (forall z, PyStr "SS2" <> PyInt z) /\ (forall z, PyStr "hours" <> PyInt z) /\
  exists s, get_mock_outlet_info (PyStr "SS2") (PyStr "hours") = Ok s.
Proof.
  assert (H1 : forall z, PyStr "SS2" <> PyInt z) by discriminate.
  assert (H2 : forall z, PyStr "hours" <> PyInt z) by discriminate.
  split; [exact H1|]. split; [exact H2|].
  exact (get_mock_outlet_info_total _ _ H1 H2).
Defined.

(** The tool branches of [process_user_input], as answered once the plan is
    known. *)
Lemma process_user_input_tools str_true_div complete st user_input sid r :
  plan_next_action user_input = Ok r -> action r <> RESPOND_DIRECTLY ->
  exists resp,
    process_user_input str_true_div complete st user_input sid =
    record_exchange st user_input sid (Some resp).
Proof.
  intros P Ha. unfold process_user_input. rewrite P.
  pose proof P as P'.
  plan_invert user_input P'; simpl in Ha |- *; try congruence; eauto.

  - destruct (extract_calculation_data_shape user_input) as [E|(n1 & o & n2 & E & _)];
      [congruence|].
    match goal with H : extract_calculation_data _ = _ |- _ => rewrite E in H; injection H as H; subst end.
    eexists; reflexivity.
Qed.

Lemma record_exchange_ok st user_input sid resp :
  fst (record_exchange st user_input sid (Some resp)) = Ok resp.
Proof. unfold record_exchange. destruct (get_session_history st sid). reflexivity. Qed.

Lemma get_session_history_messages st sid :
  let '(r, st1) := get_session_history st sid in messages_of st1 r = session_messages st sid.
Proof.
  unfold get_session_history, session_messages.
  destruct (history_store st !! sid) as [r|]; [reflexivity|].
  unfold messages_of. simpl. rewrite lookup_insert_eq. reflexivity.
Qed.

(** Only the direct-answer path can fail: [process_user_input] raises
    exactly when the input is general chat and the completion call on the
    session's messages raises, and then the store only has the session
    registered, with no message added. *)
Theorem process_user_input_raise str_true_div complete st user_input sid e st' :
  process_user_input str_true_div complete st user_input sid = (Raise e, st') ->
  analyze_intent user_input = GENERAL_CHAT /\
  complete (session_messages st sid) user_input = Raise e /\
  st' = snd (get_session_history st sid).
Proof.
  intros H. destruct (plan_next_action_ok user_input) as [r [P _]].
  destruct (action r) eqn:A.
  1-3: destruct (process_user_input_tools str_true_div complete st user_input sid r P)
         as [resp Hr]; [congruence|];
       rewrite Hr in H; pose proof (record_exchange_ok st user_input sid resp) as R;
       rewrite H in R; discriminate.
  pose proof P as P'.
  plan_invert user_input P'; simpl in A; try discriminate;
    [|exfalso; exact (analyze_intent_not_unknown user_input Ei)].
  split; [reflexivity|].
  unfold process_user_input in H. rewrite P in H. simpl in H.
  unfold invoke_with_history in H.
  pose proof (get_session_history_messages st sid) as M.
  destruct (get_session_history st sid) as [r st1]. rewrite M in H.
  destruct (complete (session_messages st sid) user_input); simplify_eq; auto.
Qed.

Lemma process_user_input_raise_witness :
  process_user_input (fun _ _ => Ok "0.5") (fun _ _ => Raise (ServiceError "timeout"))
    new_controller "hello" "s1" =
    (Raise (ServiceError "timeout"), snd (get_session_history new_controller "s1")) /\
  analyze_intent "hello" = GENERAL_CHAT.
Proof.
  assert (H : process_user_input (fun _ _ => Ok "0.5") (fun _ _ => Raise (ServiceError "timeout"))
    new_controller "hello" "s1" =
    (Raise (ServiceError "timeout"), snd (get_session_history new_controller "s1")))
    by (vm_compute; reflexivity).
  split; [exact H|]. exact (proj1 (process_user_input_raise _ _ _ _ _ _ _ H)).
Defined.

(** Outside general chat, the answer and the new store do not depend on
    the completion service: [process_user_input] never calls it. *)
Theorem process_user_input_no_completion str_true_div complete1 complete2 st user_input sid :
  analyze_intent user_input <> GENERAL_CHAT ->
  process_user_input str_true_div complete1 st user_input sid =
  process_user_input str_true_div complete2 st user_input sid.
Proof.
  intros Hc. destruct (plan_next_action_ok user_input) as [r [P _]].
  unfold process_user_input. rewrite P.
  pose proof (analyze_intent_not_unknown user_input).
  plan_invert user_input P; simpl; congruence.
Qed.

Lemma process_user_input_no_completion_witness :
  analyze_intent "what is 12 * 3" <> GENERAL_CHAT /\
  process_user_input (fun _ _ => Ok "0.5") (fun _ _ => Ok "hi") new_controller "what is 12 * 3" "s1" =
  process_user_input (fun _ _ => Ok "0.5") (fun _ _ => Raise (ServiceError "down")) new_controller
    "what is 12 * 3" "s1".
Proof.
  assert (H : analyze_intent "what is 12 * 3" <> GENERAL_CHAT) by (vm_compute; discriminate).
  split; [exact H|]. exact (process_user_input_no_completion _ _ _ _ _ _ H).
Defined.

(** When the plan uses the outlet database, the answer is about the named
    outlet: it starts with "The SS2 outlet ", "The SS15 outlet " or
    "The Damansara outlet ". *)
Theorem process_outlet_db_response str_true_div complete st user_input sid r :
  plan_next_action user_input = Ok r -> action r = USE_OUTLET_DB ->
  exists loc rest,
    fst (process_user_input str_true_div complete st user_input sid) =
      Ok ("The " +:+ loc +:+ " outlet " +:+ rest) /\
    In loc ["SS2"; "SS15"; "Damansara"].
Proof.
  intros P A. unfold process_user_input. rewrite P.
  pose proof P as P'.
  plan_invert user_input P'; simpl in A; try discriminate; simpl;
    let finish loc := exists loc; eexists; split; [apply record_exchange_ok|simpl; tauto] in
    first [ finish "SS2" | finish "SS15" | finish "Damansara" ].
Qed.

Lemma process_outlet_db_response_witness :
  plan_next_action "damansara closing?" =
    Ok {| intent := OUTLET_INFO; action := USE_OUTLET_DB; missing_info := None;
          extracted_data := Some [("location", PyStr "Damansara"); ("info_type", PyStr "closing_hours")];
          confidence := 9 # 10 |} /\
  exists loc rest,
    fst (process_user_input (fun _ _ => Ok "0.5") (fun _ _ => Ok "hi") new_controller
           "damansara closing?" "s1") =
      Ok ("The " +:+ loc +:+ " outlet " +:+ rest) /\
    In loc ["SS2"; "SS15"; "Damansara"].
Proof.
  assert (H : plan_next_action "damansara closing?" =
    Ok {| intent := OUTLET_INFO; action := USE_OUTLET_DB; missing_info := None;
          extracted_data := Some [("location", PyStr "Damansara"); ("info_type", PyStr "closing_hours")];
          confidence := 9 # 10 |}) by (vm_compute; reflexivity).
  split; [exact H|].
  exact (process_outlet_db_response _ _ _ _ _ _ H eq_refl).
Defined.

(** ** [run_interactive_conversation] *)

(** The interactive loop is [process_user_input] on the lines before the
    first one whose [.lower()] is ['exit'], in one session: when none of
    them raises, it prints their answers in order, stops at that line
    without reading further, and leaves the store of those calls. *)
Theorem run_interactive_conversation_exit str_true_div complete
    (pre : list string) (x : string) (post resps : list string) :
  lower x = "exit" -> Forall (fun l => lower l <> "exit") pre ->
  fst (run_session str_true_div complete new_controller "interactive_session" pre) = map Ok resps ->
  run_interactive_conversation str_true_div complete (pre ++ x :: post) =
    (map (fun r => "Bot: " +:+ r) resps, Exited,
     snd (run_session str_true_div complete new_controller "interactive_session" pre)).
Proof.
  intros Hx Hpre. unfold run_interactive_conversation. generalize new_controller as st.
  revert resps. induction Hpre as [|l pre Hl Hpre IH]; intros resps st Hr.
  - destruct resps; [|discriminate]. simpl. rewrite Hx. reflexivity.
  - simpl. destruct (String.eqb_spec (lower l) "exit") as [|_]; [contradiction|].
    simpl in Hr.
    destruct (process_user_input str_true_div complete st l "interactive_session") as [[resp|e] st1].
    + destruct (run_session str_true_div complete st1 "interactive_session" pre) as [outs st2] eqn:R.
      destruct resps as [|r resps]; simpl in Hr; [discriminate|]. injection Hr as -> Hr.
      specialize (IH resps st1). rewrite R in IH. simpl in IH. rewrite IH by exact Hr.
      reflexivity.
    + destruct (run_session str_true_div complete st1 "interactive_session" pre).
      destruct resps; discriminate.
Qed.

Lemma run_interactive_conversation_exit_witness :
  lower "EXIT" = "exit" /\ Forall (fun l => lower l <> "exit") ["what is 2 + 3"] /\
  fst (run_session (fun _ _ => Ok "0.5") (fun _ _ => Ok "hi") new_controller
         "interactive_session" ["what is 2 + 3"]) = map Ok ["5"] /\
  run_interactive_conversation (fun _ _ => Ok "0.5") (fun _ _ => Ok "hi")
    (["what is 2 + 3"] ++ "EXIT" :: ["never read"]) =
    (map (fun r => "Bot: " +:+ r) ["5"], Exited,
     snd (run_session (fun _ _ => Ok "0.5") (fun _ _ => Ok "hi") new_controller
            "interactive_session" ["what is 2 + 3"])).
Proof.
  assert (H1 : lower "EXIT" = "exit") by reflexivity.
  assert (H2 : Forall (fun l => lower l <> "exit") ["what is 2 + 3"])
    by (constructor; [vm_compute; discriminate|constructor]).
  assert (H3 : fst (run_session (fun _ _ => Ok "0.5") (fun _ _ => Ok "hi") new_controller
         "interactive_session" ["what is 2 + 3"]) = map Ok ["5"]) by (vm_compute; reflexivity).
  split; [exact H1|]. split; [exact H2|]. split; [exact H3|].
  exact (run_interactive_conversation_exit _ _ _ _ _ _ H1 H2 H3).
Defined.

(** ** The [substract] pattern *)

(** ["substract"] makes an input a calculation for [analyze_intent] and is
    matched by the natural-language pattern, but [operator_map] has no entry
    for it: the first natural-language match yields nothing, and the planner
    asks for the calculation again. *)
Example plan_substract_asks :
  plan_next_action "10 substract 3" =
    Ok {| intent := CALCULATION; action := ASK_FOR_INFO; missing_info := Some calc_prompt;
          extracted_data := None; confidence := 8 # 10 |}.
Proof. vm_compute. reflexivity. Qed.
